(** * arxiv-search: the index service, the legacy index service and the
      advanced-search date form, embedded in Rocq.

    Source files covered:
    - [search/services/index/__init__.py]  (module [Index])
    - [search/services/index.py]           (module [Legacy])
    - [search/controllers/advanced/forms.py] (module [Forms])
    - [tests/test_services_index.py]       (the two grouping tests, run
      on the grouper of module [Grouper])

    Python values are modelled as the code uses them: dictionaries with
    string keys as [gmap string _], integers as [Z], strings as [string],
    [None]-able values as [option].  Code that talks to Elasticsearch, logs
    and raises is written in a state-and-exception monad over an explicit
    world (backend oracle, call history, log). *)

From Stdlib Require Import ZArith Lia Bool.
From stdpp Require Import base option list strings pretty gmap.

Local Open Scope string_scope.
Local Open Scope list_scope.

(** ** The Precedence Grouper ([prepare._group_terms]) *)

Module Grouper.

(** The logical operators a clause may carry. *)
Inductive Operator := AND | OR | NOT.

#[global] Instance Operator_eq_dec : EqDecision Operator.
Proof. solve_decision. Defined.

(** The field vocabulary, as listed in [ALL_SEARCH_FIELDS] of
    [search/services/index/__init__.py]. *)
Inductive Field :=
  | author | title | abstract | comments | journal_ref | acm_class
  | msc_class | report_num | paper_id | doi | orcid | author_id.

#[global] Instance Field_eq_dec : EqDecision Field.
Proof. solve_decision. Defined.

Definition ALL_SEARCH_FIELDS : list Field :=
  [author; title; abstract; comments; journal_ref; acm_class;
   msc_class; report_num; paper_id; doi; orcid; author_id].

(** [FieldedSearchTerm(operator=..., field=..., term=...)]; the operator is
    [None] in Python for the leading term. *)
Record FieldedSearchTerm := mkTerm {
  operator : option Operator;
  field : Field;
  term : string
}.

#[global] Instance FieldedSearchTerm_eq_dec : EqDecision FieldedSearchTerm.
Proof. solve_decision. Defined.

Definition FieldedSearchList := list FieldedSearchTerm.

(** The grouped expression: the nested tuples [(left, operator, right)] the
    test compares against, with terms at the leaves. *)
Inductive GroupedExpression :=
  | Leaf (t : FieldedSearchTerm)
  | Node (l : GroupedExpression) (op : Operator) (r : GroupedExpression).

#[global] Instance GroupedExpression_eq_dec : EqDecision GroupedExpression.
Proof. solve_decision. Defined.

(** The terms of an expression, left to right. *)
Fixpoint leaves (e : GroupedExpression) : list FieldedSearchTerm :=
  match e with
  | Leaf t => [t]
  | Node l _ r => leaves l ++ leaves r
  end.

Definition all_leaves (es : list GroupedExpression) : list FieldedSearchTerm :=
  concat (map leaves es).

(** Modelled from the spec: the body of [prepare._group_terms] is not among
    the source files (only its test is).  An element of the working list is
    joined to its left neighbour by the operator of its leftmost term: a
    collapsed node [(x, op, y)] stands where [x] stood. *)
Fixpoint joining_operator (e : GroupedExpression) : option Operator :=
  match e with
  | Leaf t => operator t
  | Node l _ _ => joining_operator l
  end.

(** Modelled from the spec: one left-to-right pass over the working list
    for the operator [op] of [prepare._group_terms].  [acc] is the element
    being grown; an element joined by [op] is collapsed into it at once
    (so runs associate to the left), any other element closes [acc] and
    becomes the element being grown. *)
Fixpoint collapse (op : Operator) (acc : GroupedExpression)
    (rest : list GroupedExpression) : list GroupedExpression :=
  match rest with
  | [] => [acc]
  | y :: rest' =>
      if decide (joining_operator y = Some op)
      then collapse op (Node acc op y) rest'
      else acc :: collapse op y rest'
  end.

(** Modelled from the spec: a pass of [prepare._group_terms] over a whole
    working list; the leading element has no left neighbour and its
    operator is not looked at. *)
Definition fold_pass (es : list GroupedExpression) (op : Operator)
    : list GroupedExpression :=
  match es with
  | [] => []
  | x :: rest => collapse op x rest
  end.

(** Modelled from the spec: the precedence levels of
    [prepare._group_terms], tightest first. *)
Definition PRECEDENCE : list Operator := [NOT; AND; OR].

(** What the grouper hands back. *)
Inductive GroupResult :=
  | MatchAll
  | Grouped (e : GroupedExpression)
  | ContractViolation (remaining : list GroupedExpression).

(** Modelled from the spec: [prepare._group_terms] itself, missing from the
    source files.  The three passes run in precedence order; an empty list
    gives the match-all sentinel, a single remaining element is the root,
    and anything else (a non-leading term without operator) is a contract
    violation. *)
Definition group_terms (terms : FieldedSearchList) : GroupResult :=
  match fold_left fold_pass PRECEDENCE (map Leaf terms) with
  | [] => MatchAll
  | [e] => Grouped e
  | es => ContractViolation es
  end.

(** Every term but the leading one carries an operator. *)
Definition well_formed (terms : FieldedSearchList) : bool :=
  forallb (fun t => bool_decide (operator t <> None)) (tail terms).

End Grouper.

(** ** Python values and exceptions shared by the service modules *)

Module Py.

(** The atomic values found in documents and hits.  A float is carried as
    its binary64 bit pattern: the code below copies scores, it never
    computes with them. *)
Inductive pyvalue :=
  | PyNone
  | PyBool (b : bool)
  | PyInt (n : Z)
  | PyFloat (bits : Z)
  | PyStr (s : string).

#[global] Instance pyvalue_eq_dec : EqDecision pyvalue.
Proof. solve_decision. Defined.

(** Python truthiness ([if x], [not x]) of an atomic value. *)
Definition truthy (v : pyvalue) : bool :=
  match v with
  | PyNone => false
  | PyBool b => b
  | PyInt n => negb (n =? 0)%Z
  | PyFloat bits => negb ((bits =? 0)%Z || (bits =? 2 ^ 63)%Z)
  | PyStr s => negb (bool_decide (s = EmptyString))
  end.

(** A dictionary with string keys. *)
Abbreviation dict := (gmap string pyvalue).

(** Exceptions raised by the collaborators of the services: the
    Elasticsearch client, urllib3, the file system.  [NotFoundError] is a
    subclass of [TransportError]; the constructor [TransportError] stands
    for the instances of that class that are not [NotFoundError]s.
    [OtherException] is any other subclass of [Exception]. *)
Inductive ext_exn :=
  | NotFoundError (error info : string)
  | TransportError (error info : string)
  | SerializationError (msg : string)
  | BulkIndexError (msg : string)
  | HTTPError (msg : string)
  | OtherException (name msg : string).

(** Everything a service call can raise: a collaborator's exception let
    through unchanged, a builtin raised by the interpreter, or one of the
    classes of [search.services.index.exceptions]. *)
Inductive exn :=
  | External (e : ext_exn)
  | TypeError (msg : string)
  | ValueError (msg : string)
  | IOError (msg : string)
  | UnboundLocalError (name : string)
  | ZeroDivisionError
  | RecursionError
  | QueryError (msg : string)
  | IndexConnectionError (msg : string)
  | DocumentNotFound (msg : string)
  | IndexingError (msg : string)
  | OutsideAllowedRange (msg : string)
  | MappingError (msg : string).

(** The result of running a piece of Python: a value, or an exception. *)
Inductive Outcome (E A : Type) :=
  | Returns (a : A)
  | Raises (e : E).
Arguments Returns {E A} a.
Arguments Raises {E A} e.

Definition is_returns {E A} (o : Outcome E A) : bool :=
  match o with Returns _ => true | Raises _ => false end.

(** The client library's rendering of a transport fault: [str(e)] for a
    [TransportError] or one of its subclasses.  The library is not among
    the sources; its [__str__] reads the status code and digs the root
    cause out of [info], and raises when [info] does not have the shape it
    expects, so the rendering is a parameter that returns a string or
    raises. *)
Class Client := { transport_str : ext_exn -> Outcome exn string }.

(** [str(e)] where the code formats a collaborator's exception: the
    client's rendering for a transport fault, and for the other classes
    the message the exception carries. *)
Definition ext_str `{Client} (e : ext_exn) : Outcome exn string :=
  match e with
  | NotFoundError _ _ | TransportError _ _ => transport_str e
  | SerializationError msg => Returns msg
  | BulkIndexError msg => Returns msg
  | HTTPError msg => Returns msg
  | OtherException _ msg => Returns msg
  end.

(** [raise Error(prefix % e)]: the message is formatted before the
    exception is built, so a [str(e)] that raises raises in its place. *)
Definition raise_formatted `{Client} {A} (make : string -> exn) (e : ext_exn)
    : Outcome exn A :=
  match ext_str e with
  | Returns rendered => Raises (make rendered)
  | Raises x => Raises x
  end.

End Py.

(** ** The date subform ([search/controllers/advanced/forms.py]) *)

Module Forms.

(** [datetime.date]; Python orders dates as the triples
    [(year, month, day)]. *)
Record date := mkDate { year : Z; month : Z; day : Z }.

Definition date_lt (a b : date) : bool :=
  (year a <? year b)%Z
  || ((year a =? year b)%Z
      && ((month a <? month b)%Z
          || ((month a =? month b)%Z && (day a <? day b)%Z))).

Definition date_gt (a b : date) : bool := date_lt b a.

Definition date_eqb (a b : date) : bool :=
  (year a =? year b)%Z && (month a =? month b)%Z && (day a =? day b)%Z.

Definition date_ge (a b : date) : bool := date_gt a b || date_eqb a b.

(** [form.data] of a [DateForm]: the processed value of each field.  A
    [DateField] left empty holds [None]; the [year] field, parsed with
    format [%Y], holds the first of January of the year typed. *)
Record DateForm := mkDateForm {
  all_dates : bool;
  past_12 : bool;
  specific_year : bool;
  form_year : option date;
  date_range : bool;
  from_date : option date;
  to_date : option date
}.

(** What an inline validator does: return, or raise [ValidationError]. *)
Inductive Validation :=
  | Valid
  | ValidationError (msg : string).

Definition passes (v : Validation) : bool :=
  match v with Valid => true | ValidationError _ => false end.

(** [int(b)] for a boolean. *)
Definition int_of_bool (b : bool) : Z := if b then 1%Z else 0%Z.

(** [DateForm.validate_all_dates]: [field] is the [all_dates] field. *)
Definition validate_all_dates (form : DateForm) (field : bool) : Validation :=
  let selected :=
    fold_left (fun selected fdata => (selected + int_of_bool fdata)%Z)
              [past_12 form; specific_year form; date_range form]
              (int_of_bool field) in
  if (selected >? 1)%Z
  then ValidationError "Only one date filter may be selected"
  else Valid.

(** [DateForm.validate_specific_year]: [field] is the [specific_year]
    field.  A date object is always truthy, so [not form.data.get('year')]
    holds exactly when the year is [None]. *)
Definition validate_specific_year (form : DateForm) (field : bool) : Validation :=
  if field && negb (bool_decide (is_Some (form_year form)))
  then ValidationError "Please select a year"
  else Valid.

(** [DateForm.validate_date_range]: [field] is the [date_range] field. *)
Definition validate_date_range (form : DateForm) (field : bool) : Validation :=
  if negb field then Valid
  else
    match from_date form, to_date form with
    | None, None => ValidationError "Must select start and/or end date(s)"
    | Some f, Some t =>
        if date_ge f t
        then ValidationError "End date must be later than start date"
        else Valid
    | _, _ => Valid
    end.

(** [DateForm.validate_year]: [field] is the [year] field; [today] is
    [date.today()]. *)
Definition validate_year (today : date) (form : DateForm) (field : option date)
    : Validation :=
  match field with
  | None => Valid
  | Some d =>
      let start_of_time := mkDate 1991 1 1 in
      if date_lt d start_of_time || date_gt d today
      then ValidationError "Not a valid publication year"
      else Valid
  end.

(** The three consistency constraints promised for a validated query. *)
Definition selected_count (form : DateForm) : Z :=
  (int_of_bool (all_dates form) + int_of_bool (past_12 form)
   + int_of_bool (specific_year form) + int_of_bool (date_range form))%Z.

Definition at_most_one_selected (form : DateForm) : bool :=
  (selected_count form <=? 1)%Z.

Definition year_in_range (today : date) (form : DateForm) : bool :=
  match form_year form with
  | None => true
  | Some d => negb (date_lt d (mkDate 1991 1 1)) && negb (date_gt d today)
  end.

(** A date range, with the [date_range] option selected, whose two bounds
    are both given has its start before its end. *)
Definition range_ordered (form : DateForm) : bool :=
  match from_date form, to_date form with
  | Some f, Some t => negb (date_range form) || date_lt f t
  | _, _ => true
  end.

(** The same constraint read without regard to the [date_range] option. *)
Definition bounds_ordered (form : DateForm) : bool :=
  match from_date form, to_date form with
  | Some f, Some t => date_lt f t
  | _, _ => true
  end.

(** When the date-range option is selected, a bound is given. *)
Definition bound_given (form : DateForm) : bool :=
  negb (date_range form)
  || bool_decide (is_Some (from_date form))
  || bool_decide (is_Some (to_date form)).

End Forms.

(** ** The legacy index service ([search/services/index.py]) *)

Module Legacy.
Import Py.

(** One element of [results['hits']['hits']]. *)
Record Hit := mkHit {
  _source : dict;
  _score : pyvalue;
  _type : pyvalue
}.

(** The part of the Elasticsearch response the service reads:
    [results['hits']['total']] and [results['hits']['hits']]. *)
Record SearchResponse := mkResponse {
  total : Z;
  hits : list Hit
}.

(** The dictionary [{'count': ..., 'results': ...}] that [search] returns. *)
Record ResultSet := mkResultSet {
  count : Z;
  results : list dict
}.

(** [SearchSession._transform]: the hit's source dictionary with the score
    and the type tag stored under ['score'] and ['type']. *)
Definition _transform (raw : Hit) : dict :=
  let result := _source raw in
  let result := <["score" := _score raw]> result in
  let result := <["type" := _type raw]> result in
  result.

(** [SearchSession.search], given what [self.es.search(...)] did. *)
Definition search `{Client} (es_search : Outcome ext_exn SearchResponse)
    : Outcome exn ResultSet :=
  match es_search with
  | Returns results =>
      Returns {| count := total results;
                 results := _transform <$> hits results |}
  | Raises (TransportError error info as e)
  | Raises (NotFoundError error info as e) =>
      if bool_decide (error = "parsing_exception")
      then Raises (ValueError info)
      else raise_formatted
             (fun rendered => IOError ("Problem communicating with ES: "
                                       +:+ rendered)) e
  | Raises e => Raises (External e)
  end.

End Legacy.

(** ** The index service ([search/services/index/__init__.py]) *)

Module Index.
Import Py.

(** What the module imports and this development does not have the source
    of: [elasticsearch_dsl.Search], the response it executes to,
    [search.domain] ([Query] and its subclasses, [DocumentSet]),
    [.util.MAX_RESULTS], and the functions of [.prepare] and [.results]. *)
Class Collaborators := {
  Search : Type;
  Response : Type;
  DocumentSet : Type;
  QueryContent : Type;
  MAX_RESULTS : Z;
  (** [Search(using=self.es, index=index)] *)
  Search_new : string -> Search;
  (** [search[start:end]], for bounds that the slice accepts *)
  Search_slice : Search -> Z -> Z -> Search;
  (** [str(query)] *)
  Query_str : Z -> Z -> QueryContent -> string;
  prepare_advanced : Search -> Z -> Z -> QueryContent -> Outcome exn Search;
  prepare_simple : Search -> Z -> Z -> QueryContent -> Outcome exn Search;
  prepare_highlight : Search -> Search;
  results_to_documentset : Z -> Z -> QueryContent -> Response -> DocumentSet
}.

(** The class of a query object, as [isinstance] sees it. *)
Inductive QueryKind := IsAdvancedQuery | IsSimpleQuery | IsOtherQuery.

(** A [search.domain.Query]: pagination, its class, and the rest. *)
Record Query `{Collaborators} := mkQuery {
  page : Z;
  page_size : Z;
  kind : QueryKind;
  content : QueryContent
}.
Arguments mkQuery {_} page page_size kind content.

(** Modelled from the spec: the derived offsets [Query.page_start] and
    [Query.page_end] of [search.domain], which is not among the sources. *)
Definition page_start `{Collaborators} (query : Query) : Z :=
  ((page query - 1) * page_size query)%Z.

Definition page_end `{Collaborators} (query : Query) : Z :=
  (page_start query + page_size query)%Z.

(** A document is the dictionary of its fields; an attribute that was not
    set reads as [None]. *)
Definition Document := dict.

Definition attr (d : Document) (name : string) : pyvalue :=
  default PyNone (d !! name).

(** The parsed mapping file. *)
Definition Mappings := string.

(** An action of the bulk helper. *)
Record Action := mkAction {
  _index : string;
  _type : string;
  _id : pyvalue;
  _source : Document
}.

(** The configuration a [SearchSession] keeps. *)
Record SearchSession := mkSession {
  index : string;
  mapping : option string
}.

Section Service.
Context `{Collaborators}.

(** The requests made to the Elasticsearch client. *)
Inductive Call :=
  | CHealth
  | CExists (idx : string)
  | CCreate (idx : string) (mappings : Mappings)
  | CIndex (idx : string) (ident : pyvalue) (body : Document)
  | CBulk (actions : list Action) (chunk_size : Z)
  | CGet (idx : string) (document_id : Z)
  | CExecute (search : Search).

Inductive Level := DEBUG | ERROR.

(** A log record: level, message template, arguments. *)
Record LogRecord := mkLog {
  level : Level;
  template : string;
  args : list pyvalue
}.

(** Why [current_session()] may fail: the client could not be constructed
    ([SearchSession.__init__] then raises [IndexConnectionError] with the
    client's message), or the construction raised something else, which
    goes through unchanged. *)
Inductive SessionFault :=
  | CouldNotInitialize (msg : string)
  | ConstructorRaised (e : ext_exn).

(** What surrounds a session, as an oracle: the cluster, the file system
    and the application context.  Each request yields what it yields given
    the requests made before it.  [es_get] yields [None] for a falsy
    record and [Some src] for a record whose ['_source'] is [src];
    [load_mapping] is [open(path)] followed by [json.load].  [app_session]
    is what the module-level [current_session()] yields in this context,
    with the records that building the session logs (none when the session
    is cached); it is taken to be the same throughout one operation, and
    the sessions of a context talk to the one cluster. *)
Record Backend := mkBackend {
  cluster_health : list Call -> Outcome ext_exn unit;
  indices_exists : list Call -> string -> Outcome ext_exn bool;
  indices_create : list Call -> string -> Mappings -> Outcome ext_exn unit;
  es_index : list Call -> string -> pyvalue -> Document -> Outcome ext_exn unit;
  helpers_bulk : list Call -> list Action -> Z -> Outcome ext_exn unit;
  es_get : list Call -> string -> Z -> Outcome ext_exn (option dict);
  execute : list Call -> Search -> Outcome ext_exn Response;
  load_mapping : string -> Outcome ext_exn Mappings;
  app_session : Outcome SessionFault SearchSession * list LogRecord
}.

(** The requests that create an index. *)
Definition is_create (c : Call) : bool :=
  match c with CCreate _ _ => true | _ => false end.

(** What the service changes: the requests made so far (oldest first) and
    the log. *)
Record State := mkState {
  history : list Call;
  log : list LogRecord
}.

(** Service code: a state transformer that returns or raises. *)
Definition M (A : Type) : Type := State -> Outcome exn A * State.

Definition ret {A} (a : A) : M A := fun st => (Returns a, st).

Definition raise {A} (e : exn) : M A := fun st => (Raises e, st).

Definition bind {A B} (m : M A) (k : A -> M B) : M B :=
  fun st =>
    match m st with
    | (Returns a, st') => k a st'
    | (Raises e, st') => (Raises e, st')
    end.

Definition lift {A} (o : Outcome exn A) : M A := fun st => (o, st).

Definition lift_ext {A} (o : Outcome ext_exn A) : Outcome exn A :=
  match o with
  | Returns a => Returns a
  | Raises e => Raises (External e)
  end.

Definition logger (lvl : Level) (template : string) (args : list pyvalue)
    : M unit :=
  fun st =>
    (Returns tt,
     {| history := history st; log := log st ++ [mkLog lvl template args] |}).

(** A request to the client: recorded, then answered by the oracle from
    the requests made before it. *)
Definition request {A} (c : Call) (answer : list Call -> Outcome ext_exn A)
    : M A :=
  fun st =>
    (lift_ext (answer (history st)),
     {| history := history st ++ [c]; log := log st |}).

(** Service code only ever adds requests to the history. *)
Definition grows {A} (m : M A) : Prop :=
  forall st, exists more, history (snd (m st)) = history st ++ more.

End Service.

Declare Scope service_scope.
Delimit Scope service_scope with service.
Notation "x <- m ;; k" := (bind m (fun x => k))
  (at level 100, m at next level, right associativity) : service_scope.
Notation "m ;;; k" := (bind m (fun _ => k))
  (at level 100, right associativity) : service_scope.

Local Open Scope service_scope.

Section Operations.
Context `{Collaborators} `{Client}.
Variable be : Backend.

(** The double quote that some messages contain. *)
Definition dq : string := String (Ascii.ascii_of_nat 34) EmptyString.

(** Falsy [self.mapping]: [None] or the empty string. *)
Definition mapping_set (s : SearchSession) : bool :=
  match mapping s with
  | None => false
  | Some path => negb (bool_decide (path = EmptyString))
  end.

(** The [except] clauses of [handle_es_exceptions], for an exception [e]
    raised by the guarded block.  [create_index] is the module-level
    function of that name.  The result [None] says that the clause ended
    without raising: the context manager then suppresses [e]. *)
Definition on_exception {A} (create_index : M unit) (e : exn) : M (option A) :=
  match e with
  | External (NotFoundError _ _) =>
      raise (DocumentNotFound "No such document")
  | External (TransportError error info) =>
      logger ERROR error [] ;;;
      if bool_decide (error = "resource_already_exists_exception")
      then
        logger DEBUG "Index already exists; move along" [] ;;;
        ret None
      else if bool_decide (error = "mapper_parsing_exception")
      then
        logger ERROR "Invalid document mapping; create index failed" [] ;;;
        logger DEBUG info [] ;;;
        raise (MappingError ("Invalid mapping: " +:+ info))
      else
        (if bool_decide (error = "index_not_found_exception")
         then create_index
         else if bool_decide (error = "parsing_exception")
         then raise (QueryError info)
         else ret tt) ;;;
        logger ERROR ("Problem communicating with ES: " +:+ error) [] ;;;
        raise (IndexConnectionError
                 ("Problem communicating with ES: " +:+ error))
  | External (SerializationError msg) =>
      logger ERROR "SerializationError: %s" [PyStr msg] ;;;
      raise (IndexingError ("Problem serializing document: " +:+ msg))
  | External (BulkIndexError msg) =>
      logger ERROR "BulkIndexError: %s" [PyStr msg] ;;;
      raise (IndexingError ("Problem with bulk indexing: " +:+ msg))
  | _ =>
      logger ERROR "Unhandled exception: %s" [] ;;;
      ret None
  end.

(** The [error] values of a [TransportError] that the clauses single
    out. *)
Definition singled_out_errors : list string :=
  ["resource_already_exists_exception"; "mapper_parsing_exception";
   "index_not_found_exception"; "parsing_exception"].

(** [handle_es_exceptions], around the block [body].  The result is
    [Some a] when the block ran to its end with value [a], and [None] when
    the context manager suppressed the block's exception: execution then
    goes on after the [with] statement, with whatever the block was to
    assign left unbound. *)
Definition handle_es_exceptions {A} (create_index : M unit) (body : M A)
    : M (option A) :=
  fun st =>
    match body st with
    | (Returns a, st') => (Returns (Some a), st')
    | (Raises e, st') => on_exception create_index e st'
    end.

(** The exception a failed [current_session()] raises. *)
Definition session_fault (fault : SessionFault) : exn :=
  match fault with
  | CouldNotInitialize msg =>
      IndexConnectionError ("Could not initialize ES session: " +:+ msg)
  | ConstructorRaised e => External e
  end.

(** The module-level [current_session()], as the context answers it. *)
Definition current_session : M SearchSession :=
  fun st =>
    (match fst (app_session be) with
     | Returns session => Returns session
     | Raises fault => Raises (session_fault fault)
     end,
     {| history := history st; log := log st ++ snd (app_session be) |}).

(** [SearchSession.create_index].  The handler inside it may call the
    module-level [create_index], which runs this method on the current
    session of the context, not on [self]; [depth] is the room left on the
    interpreter's call stack, and a call with none left raises
    [RecursionError]. *)
Fixpoint create_index (depth : nat) (s : SearchSession) : M unit :=
  match depth with
  | O => raise RecursionError
  | S depth' =>
      logger DEBUG ("create ES index " +:+ dq +:+ "%s" +:+ dq) [PyStr (index s)] ;;;
      match mapping s with
      | Some path =>
          if negb (bool_decide (path = EmptyString))
          then
            handle_es_exceptions
              (session <- current_session ;; create_index depth' session)
              (mappings <- lift (lift_ext (load_mapping be path)) ;;
               request (CCreate (index s) mappings)
                       (fun h => indices_create be h (index s) mappings)) ;;;
            ret tt
          else raise (IndexingError "Mapping not set")
      | None => raise (IndexingError "Mapping not set")
      end
  end.

(** The module-level [create_index()], which the handler calls:
    [current_session().create_index()]. *)
Definition current_create_index (depth : nat) : M unit :=
  session <- current_session ;; create_index depth session.

(** [SearchSession.cluster_available].  Each [except] clause evaluates
    [str(e)] before it logs; when that raises, the exception leaves the
    clause and the method. *)
Definition cluster_available : M bool :=
  fun st =>
    match request CHealth (cluster_health be) st with
    | (Returns _, st') => (Returns true, st')
    | (Raises (External (HTTPError msg as e)), st') =>
        (rendered <- lift (ext_str e) ;;
         logger DEBUG "Health check failed: %s" [PyStr rendered] ;;;
         ret false) st'
    | (Raises (External e), st') =>
        (rendered <- lift (ext_str e) ;;
         logger DEBUG "Health check failed: %s" [PyStr rendered] ;;;
         ret false) st'
    | (Raises _, st') =>
        (logger DEBUG "Health check failed: %s" [] ;;;
         ret false) st'
    end.

(** [document.id if document.id else document.paper_id] *)
Definition ident_of (document : Document) : pyvalue :=
  if truthy (attr document "id") then attr document "id"
  else attr document "paper_id".

(** [SearchSession.add_document] *)
Definition add_document (depth : nat) (s : SearchSession) (document : Document)
    : M unit :=
  index_exists <- request (CExists (index s))
                          (fun h => indices_exists be h (index s)) ;;
  (if negb index_exists then create_index depth s else ret tt) ;;;
  handle_es_exceptions (current_create_index depth)
    (let ident := ident_of document in
     logger DEBUG "{ident}: index document" [ident] ;;;
     request (CIndex (index s) ident document)
             (fun h => es_index be h (index s) ident document)) ;;;
  ret tt.

(** The generator of actions in [bulk_add_documents]. *)
Definition bulk_actions (s : SearchSession) (documents : list Document)
    : list Action :=
  map (fun document =>
         {| _index := index s;
            _type := "document";
            _id := ident_of document;
            _source := document |}) documents.

(** [SearchSession.bulk_add_documents]; [docs_per_chunk] defaults to 500. *)
Definition bulk_add_documents (depth : nat) (s : SearchSession)
    (documents : list Document) (docs_per_chunk : Z) : M unit :=
  index_exists <- request (CExists (index s))
                          (fun h => indices_exists be h (index s)) ;;
  (if negb index_exists
   then
     logger DEBUG "index does not exist" [] ;;;
     create_index depth s ;;;
     logger DEBUG "created index" []
   else ret tt) ;;;
  handle_es_exceptions (current_create_index depth)
    (let actions := bulk_actions s documents in
     request (CBulk actions docs_per_chunk)
             (fun h => helpers_bulk be h actions docs_per_chunk) ;;;
     logger DEBUG "added %i documents to index"
            [PyInt (Z.of_nat (length documents))]) ;;;
  ret tt.

(** [SearchSession.get_document].  When the handler suppressed the block's
    exception, [record] was never assigned and reading it raises
    [UnboundLocalError]. *)
Definition get_document (depth : nat) (s : SearchSession) (document_id : Z)
    : M Document :=
  record <- handle_es_exceptions (current_create_index depth)
              (request (CGet (index s) document_id)
                       (fun h => es_get be h (index s) document_id)) ;;
  match record with
  | None => raise (UnboundLocalError "record")
  | Some None =>
      logger ERROR "No such document: %s" [PyInt document_id] ;;;
      raise (DocumentNotFound "No such document")
  | Some (Some source) => ret source
  end.

(** [int(MAX_RESULTS/query.page_size)]: the quotient truncated towards
    zero (the float quotient of two integers below 2^52 truncates to the
    integer quotient). *)
Definition max_pages (query : Query) : Z :=
  Z.quot MAX_RESULTS (page_size query).

Definition outside_message (query : Query) : string :=
  "Requested page " +:+ pretty (page query) +:+ ", but max is "
  +:+ pretty (max_pages query).

(** The [try] block of [search]: dispatch on the class of the query, a
    [TypeError] from the preparation becoming a [QueryError]. *)
Definition prepare_query (current_search : Search) (query : Query)
    : Outcome exn Search :=
  let prepared :=
    match kind query with
    | IsAdvancedQuery =>
        prepare_advanced current_search (page query) (page_size query)
                         (content query)
    | IsSimpleQuery =>
        prepare_simple current_search (page query) (page_size query)
                       (content query)
    | IsOtherQuery => Returns current_search
    end in
  match prepared with
  | Raises (TypeError _) => Raises (QueryError "Malformed query")
  | o => o
  end.

(** [current_search[start:stop]]: [elasticsearch_dsl] refuses a negative
    bound with [ValueError]. *)
Definition slice (current_search : Search) (start stop : Z)
    : Outcome exn Search :=
  if (start <? 0)%Z || (stop <? 0)%Z
  then Raises (ValueError "Search does not support negative slicing.")
  else Returns (Search_slice current_search start stop).

(** [SearchSession.search].  The slice is taken inside the guarded block,
    so the handler sees what it raises. *)
Definition search (depth : nat) (s : SearchSession) (query : Query)
    : M DocumentSet :=
  if (page_size query =? 0)%Z then raise ZeroDivisionError
  else
    if (page query >? max_pages query)%Z
    then
      logger ERROR (outside_message query) [] ;;;
      raise (OutsideAllowedRange (outside_message query))
    else
      logger DEBUG "got current_search request %s"
             [PyStr (Query_str (page query) (page_size query) (content query))] ;;;
      let current_search := Search_new (index s) in
      current_search <- lift (prepare_query current_search query) ;;
      let current_search := prepare_highlight current_search in
      resp <- handle_es_exceptions (current_create_index depth)
                (sliced <- lift (slice current_search (page_start query)
                                       (page_end query)) ;;
                 request (CExecute sliced) (fun h => execute be h sliced)) ;;
      match resp with
      | None => raise (UnboundLocalError "resp")
      | Some resp =>
          ret (results_to_documentset (page query) (page_size query)
                                      (content query) resp)
      end.

End Operations.

End Index.

(** ** A small cluster to run the service on *)

Module Sample.
Import Py Index.

(** A search under construction: its index, the constraint a preparation
    put on it, whether highlighting was added, and its window. *)
Record SampleSearch := mkSearch {
  on_index : string;
  constraint : option string;
  highlighted : bool;
  window : option (Z * Z)
}.

#[global] Instance sample_collaborators : Collaborators := {|
  Search := SampleSearch;
  Response := Z * list dict;
  DocumentSet := Z * list dict;
  QueryContent := string;
  MAX_RESULTS := 10000;
  Search_new := fun idx => mkSearch idx None false None;
  Search_slice := fun cs a b =>
    mkSearch (on_index cs) (constraint cs) (highlighted cs) (Some (a, b));
  Query_str := fun _ _ c => c;
  prepare_advanced := fun cs _ _ c =>
    if bool_decide (c = EmptyString) then Raises (TypeError "no terms")
    else Returns (mkSearch (on_index cs) (Some ("advanced:" +:+ c))
                           (highlighted cs) (window cs));
  prepare_simple := fun cs _ _ c =>
    Returns (mkSearch (on_index cs) (Some ("simple:" +:+ c))
                      (highlighted cs) (window cs));
  prepare_highlight := fun cs =>
    mkSearch (on_index cs) (constraint cs) true (window cs);
  results_to_documentset := fun _ _ _ resp => resp
|}.

(** Whether the index [idx] exists after the requests [h], on a cluster
    where it existed at the start or not ([present]). *)
Definition index_present (present : bool) (idx : string) (h : list Call) : bool :=
  present
  || existsb (fun c => match c with
                       | CCreate idx' _ => bool_decide (idx' = idx)
                       | _ => false
                       end) h.

Definition session : SearchSession :=
  mkSession "arxiv" (Some "mappings/DocumentMapping.json").

Definition session_without_mapping : SearchSession :=
  mkSession "arxiv" None.

(** A client whose rendering of a transport fault works when the fault
    carries no info, and raises [TypeError] when it carries one whose
    root cause cannot be dug out (a body whose ['error'] entry is a plain
    string). *)
Definition sample_client : Client := {|
  transport_str := fun e =>
    match e with
    | TransportError error info =>
        if bool_decide (info = EmptyString)
        then Returns ("TransportError(N/A, '" +:+ error +:+ "')")
        else Raises (TypeError "string indices must be integers")
    | NotFoundError error info =>
        if bool_decide (info = EmptyString)
        then Returns ("NotFoundError(404, '" +:+ error +:+ "')")
        else Raises (TypeError "string indices must be integers")
    | _ => Returns EmptyString
    end
|}.

Definition sample_document : Document :=
  {[ "paper_id" := PyStr "1801.00123"; "title" := PyStr "muon" ]}.

(** A cluster that is up, keeps track of the index, holds one document
    (number 42), and matches nothing. *)
Definition cluster (present : bool) : Backend := {|
  cluster_health := fun _ => Returns tt;
  indices_exists := fun h idx => Returns (index_present present idx h);
  indices_create := fun h idx _ =>
    if index_present present idx h
    then Raises (TransportError "resource_already_exists_exception" idx)
    else Returns tt;
  es_index := fun h idx _ _ =>
    if index_present present idx h then Returns tt
    else Raises (TransportError "index_not_found_exception" idx);
  helpers_bulk := fun h _ _ => Returns tt;
  es_get := fun _ _ document_id =>
    if (document_id =? 42)%Z then Returns (Some sample_document)
    else Raises (NotFoundError "not_found" "document missing");
  execute := fun _ _ => Returns (0%Z, []);
  load_mapping := fun path =>
    if bool_decide (path = "mappings/DocumentMapping.json")
    then Returns "{mappings}"
    else Raises (OtherException "FileNotFoundError" path);
  app_session := (Returns session, [])
|}.

(** A cluster that cannot be reached with a fault the client does not
    wrap. *)
Definition broken_cluster (fault : ext_exn) : Backend := {|
  cluster_health := fun _ => Raises fault;
  indices_exists := fun _ _ => Raises fault;
  indices_create := fun _ _ _ => Raises fault;
  es_index := fun _ _ _ _ => Raises fault;
  helpers_bulk := fun _ _ _ => Raises fault;
  es_get := fun _ _ _ => Raises fault;
  execute := fun _ _ => Raises fault;
  load_mapping := fun _ => Raises fault;
  app_session := (Returns session, [])
|}.

Definition start : State := mkState [] [].

End Sample.

(** ** Clusters that fail *)

Module Faulty.
Import Py Index.

(** A cluster that has the index and answers every request about
    documents, searches and index creation with [fault]; the mapping file
    loads. *)
Definition faulty_cluster (fault : ext_exn) : Backend := {|
  cluster_health := fun _ => Returns tt;
  indices_exists := fun _ _ => Returns true;
  indices_create := fun _ _ _ => Raises fault;
  es_index := fun _ _ _ _ => Raises fault;
  helpers_bulk := fun _ _ _ => Raises fault;
  es_get := fun _ _ _ => Raises fault;
  execute := fun _ _ => Raises fault;
  load_mapping := load_mapping (Sample.cluster true);
  app_session := (Returns Sample.session, [])
|}.

(** A cluster whose existence check is out of date: it reports the index,
    the indexing request finds it gone, and creating it succeeds. *)
Definition stale_cluster : Backend := {|
  cluster_health := fun _ => Returns tt;
  indices_exists := fun _ _ => Returns true;
  indices_create := fun _ _ _ => Returns tt;
  es_index := fun _ idx _ _ =>
    Raises (TransportError "index_not_found_exception" idx);
  helpers_bulk := fun _ _ _ =>
    Raises (TransportError "index_not_found_exception" "arxiv");
  es_get := fun _ _ _ => Raises (NotFoundError "not_found" "document missing");
  execute := fun _ _ => Returns (0%Z, []);
  load_mapping := load_mapping (Sample.cluster true);
  app_session := (Returns Sample.session, [])
|}.

End Faulty.

(** ** Configuration and sessions of the index service
       ([init_app], [get_session], [current_session], [ok] and
       [SearchSession.__init__] of [search/services/index/__init__.py]) *)

Module Settings.

(** The application configuration: a dictionary whose values are strings
    or [None]. *)
Abbreviation config := (gmap string (option string)).

(** [config.setdefault(key, value)]: a key that is present keeps its
    value, even when that value is [None]. *)
Definition setdefault (key : string) (value : option string) (c : config)
    : config :=
  match c !! key with
  | Some _ => c
  | None => <[key := value]> c
  end.

(** [config.get(key, fallback)]: the fallback is used only for an absent
    key. *)
Definition get (c : config) (key : string) (fallback : option string)
    : option string :=
  default fallback (c !! key).

(** [str(v)], as ['%s' % v] renders a string or [None]. *)
Definition str (v : option string) : string :=
  match v with
  | Some s => s
  | None => "None"
  end.

(** Truthiness of a string or [None]. *)
Definition truthy (v : option string) : bool :=
  match v with
  | Some s => negb (bool_decide (s = EmptyString))
  | None => false
  end.

Definition to_pyvalue (v : option string) : Py.pyvalue :=
  match v with
  | Some s => Py.PyStr s
  | None => Py.PyNone
  end.

(** What the construction of the Elasticsearch client can raise: an
    [ElasticsearchException] (with its [str]), or anything else. *)
Inductive ConstructorFault :=
  | ElasticsearchException (msg : string)
  | OtherFault (e : Py.exn).

End Settings.

Module IndexSession.
Import Py Settings.

(** The arguments the client is built with. *)
Record Connection := mkConnection {
  host : option string;
  port : option string;
  use_ssl : bool;
  http_auth : option string;
  verify_certs : bool
}.

(** A [SearchSession] object: [self.index], [self.mapping], [self.es]. *)
Record SessionObject := mkSessionObject {
  index : option string;
  mapping : option string;
  es : Connection
}.

(** [SearchSession.__init__]; [connect] is the construction of the
    client.  The result carries the debug record that is logged first. *)
Definition __init__ (connect : Connection -> Outcome ConstructorFault unit)
    (host index port scheme user password mapping : option string)
    (verify : bool) : Outcome exn SessionObject * list Index.LogRecord :=
  let use_ssl := bool_decide (scheme = Some "https") in
  let http_auth :=
    if truthy user then Some (str user +:+ ":" +:+ str password) else None in
  let record :=
    Index.mkLog Index.DEBUG
      ("init ES session for index " +:+ Index.dq +:+ "{index}" +:+ Index.dq
       +:+ " at {scheme}://{host}:{port} with verify={verify} and ssl={use_ssl}")
      [to_pyvalue index; to_pyvalue scheme; to_pyvalue host; to_pyvalue port;
       PyBool verify; PyBool use_ssl] in
  let connection := mkConnection host port use_ssl http_auth verify in
  match connect connection with
  | Returns _ => (Returns (mkSessionObject index mapping connection), [record])
  | Raises (ElasticsearchException msg) =>
      (Raises (IndexConnectionError ("Could not initialize ES session: " +:+ msg)),
       [record; Index.mkLog Index.ERROR "ElasticsearchException: %s" [PyStr msg]])
  | Raises (OtherFault e) => (Raises e, [record])
  end.

(** [init_app], on the configuration of the application. *)
Definition init_app (c : config) : config :=
  let c := setdefault "ELASTICSEARCH_HOST" (Some "localhost") c in
  let c := setdefault "ELASTICSEARCH_PORT" (Some "9200") c in
  let c := setdefault "ELASTICSEARCH_INDEX" (Some "arxiv") c in
  let c := setdefault "ELASTICSEARCH_USER" None c in
  let c := setdefault "ELASTICSEARCH_PASSWORD" None c in
  let c := setdefault "ELASTICSEARCH_MAPPING" (Some "mappings/DocumentMapping.json") c in
  let c := setdefault "ELASTICSEARCH_VERIFY" (Some "true") c in
  c.

(** [get_session], on the configuration of the application. *)
Definition get_session (connect : Connection -> Outcome ConstructorFault unit)
    (c : config) : Outcome exn SessionObject * list Index.LogRecord :=
  let host := get c "ELASTICSEARCH_HOST" (Some "localhost") in
  let port := get c "ELASTICSEARCH_PORT" (Some "9200") in
  let scheme := get c "ELASTICSEARCH_SCHEME" (Some "http") in
  let index := get c "ELASTICSEARCH_INDEX" (Some "arxiv") in
  let verify :=
    bool_decide (get c "ELASTICSEARCH_VERIFY" (Some "true") = Some "true") in
  let user := get c "ELASTICSEARCH_USER" None in
  let password := get c "ELASTICSEARCH_PASSWORD" None in
  let mapping := get c "ELASTICSEARCH_MAPPING"
                     (Some "mappings/DocumentMapping.json") in
  __init__ connect host index port scheme user password mapping verify.

(** The application global [g], as far as this module uses it: its
    [search] attribute, set or not. *)
Record AppGlobal := mkGlobal { search : option SessionObject }.

(** [current_session]; [g] is what [get_application_global()] returns,
    [None] outside an application context.  The result carries the global
    as the call leaves it. *)
Definition current_session (connect : Connection -> Outcome ConstructorFault unit)
    (c : config) (g : option AppGlobal)
    : Outcome exn SessionObject * option AppGlobal * list Index.LogRecord :=
  match g with
  | None => let '(o, l) := get_session connect c in (o, None, l)
  | Some (mkGlobal (Some session)) => (Returns session, g, [])
  | Some (mkGlobal None) =>
      match get_session connect c with
      | (Returns session, l) =>
          (Returns session, Some (mkGlobal (Some session)), l)
      | (Raises e, l) => (Raises e, g, l)
      end
  end.

(** [ok]: whether [current_session()] returned. *)
Definition ok (connect : Connection -> Outcome ConstructorFault unit)
    (c : config) (g : option AppGlobal) : bool * option AppGlobal :=
  match current_session connect c g with
  | (Returns _, g', _) => (true, g')
  | (Raises _, g', _) => (false, g')
  end.

End IndexSession.

(** ** The rest of the legacy index service ([search/services/index.py]);
       as in [Legacy], its debug records are left out *)

Module LegacySession.
Import Py Settings.

(** The arguments the client is built with: host and port, and the
    [http_auth] passed on through [**extra]. *)
Record Connection := mkConnection {
  host : option string;
  port : option string;
  http_auth : option string
}.

Record SessionObject := mkSessionObject {
  index : option string;
  es : Connection
}.

(** [SearchSession.__init__]; [extra_http_auth] is the [http_auth] keyword
    of [**extra], absent or given. *)
Definition __init__ (connect : Connection -> Outcome ConstructorFault unit)
    (host index port : option string) (extra_http_auth : option string)
    : Outcome exn SessionObject :=
  let connection := mkConnection host port extra_http_auth in
  match connect connection with
  | Returns _ => Returns (mkSessionObject index connection)
  | Raises (ElasticsearchException msg) =>
      Raises (IOError ("Could not initialize ES session: " +:+ msg))
  | Raises (OtherFault e) => Raises e
  end.

Definition init_app (c : config) : config :=
  let c := setdefault "ELASTICSEARCH_HOST" (Some "localhost") c in
  let c := setdefault "ELASTICSEARCH_PORT" (Some "9200") c in
  let c := setdefault "ELASTICSEARCH_INDEX" (Some "arxiv") c in
  let c := setdefault "ELASTICSEARCH_USER" (Some "elastic") c in
  let c := setdefault "ELASTICSEARCH_PASSWORD" (Some "changeme") c in
  c.

Definition get_session (connect : Connection -> Outcome ConstructorFault unit)
    (c : config) : Outcome exn SessionObject :=
  let host := get c "ELASTICSEARCH_HOST" (Some "localhost") in
  let port := get c "ELASTICSEARCH_PORT" (Some "9200") in
  let index := get c "ELASTICSEARCH_INDEX" (Some "arxiv") in
  let user := get c "ELASTICSEARCH_USER" (Some "elastic") in
  let password := get c "ELASTICSEARCH_PASSWORD" (Some "changeme") in
  __init__ connect host index port (Some (str user +:+ ":" +:+ str password)).

(** [SearchSession.add_document]; [es_index id body] is the client's
    [index] call.  A document without ['metadata_id'] raises [KeyError]
    while the arguments of the call are evaluated. *)
Definition add_document `{Client}
    (es_index : pyvalue -> dict -> Outcome ext_exn unit)
    (document : dict) : Outcome exn unit :=
  match document !! "metadata_id" with
  | None => Raises (External (OtherException "KeyError" "metadata_id"))
  | Some ident =>
      match es_index ident document with
      | Returns _ => Returns tt
      | Raises (SerializationError msg as e) =>
          raise_formatted
            (fun rendered => ValueError ("Problem serializing document: "
                                         +:+ rendered)) e
      | Raises (TransportError _ _ as e) | Raises (NotFoundError _ _ as e) =>
          raise_formatted
            (fun rendered => IOError ("Problem communicating with ES: "
                                      +:+ rendered)) e
      | Raises e => Raises (External e)
      end
  end.

(** [SearchSession.get_document], given what [self.es.get(...)] did: a
    falsy record ([None] here) or a record with its ['_source'].  The
    result [None] is Python's [None]. *)
Definition get_document `{Client} (es_get : Outcome ext_exn (option dict))
    : Outcome exn (option dict) :=
  match es_get with
  | Returns None => Returns None
  | Returns (Some source) => Returns (Some source)
  | Raises (SerializationError msg as e) =>
      raise_formatted
        (fun rendered => ValueError ("Problem serializing document: "
                                     +:+ rendered)) e
  | Raises (TransportError _ _ as e) | Raises (NotFoundError _ _ as e) =>
      raise_formatted
        (fun rendered => IOError ("Problem communicating with ES: "
                                  +:+ rendered)) e
  | Raises e => Raises (External e)
  end.

End LegacySession.

(** ** Requests that create a given index *)

Module IndexRequests.
Import Index.

Definition creates_index `{Collaborators} (idx : string) (c : Call) : bool :=
  match c with
  | CCreate idx' _ => bool_decide (idx' = idx)
  | _ => false
  end.

(** A create request for the index of the session [s] or for the index of
    the current session of the context. *)
Definition creates_own_or_current `{Collaborators} (be : Backend)
    (s : SearchSession) (c : Call) : bool :=
  creates_index (index s) c
  || match fst (app_session be) with
     | Py.Returns current => creates_index (index current) c
     | Py.Raises _ => false
     end.

End IndexRequests.

(** ** The year field of the date subform *)

Module YearField.
Import Forms.

(** What the [year] field holds after a year [y] was typed: the format
    [%Y] parses to the first of January of that year. *)
Definition parsed_year (y : Z) : date := mkDate y 1 1.

(** A calendar date has month and day from 1 on. *)
Definition calendar (d : date) : bool :=
  (1 <=? month d)%Z && (1 <=? day d)%Z.

End YearField.

(** * Properties *)

(** ** The Precedence Grouper *)

Section GrouperFacts.
Import Grouper.

(** The terms of [TestPrepare.test_group_terms]. *)
Example test_group_terms :
  let muon := mkTerm None title "muon" in
  let gluon := mkTerm (Some OR) title "gluon" in
  let foo := mkTerm (Some NOT) title "foo" in
  let boson := mkTerm (Some AND) title "boson" in
  group_terms [muon; gluon; foo; boson]
  = Grouped (Node (Leaf muon) OR
               (Node (Node (Leaf gluon) NOT (Leaf foo)) AND (Leaf boson))).
Proof. reflexivity. Qed.

(** The terms of [TestPrepare.test_group_terms_all_and]. *)
Example test_group_terms_all_and :
  let muon := mkTerm None title "muon" in
  let gluon := mkTerm (Some AND) title "gluon" in
  let foo := mkTerm (Some AND) title "foo" in
  group_terms [muon; gluon; foo]
  = Grouped (Node (Node (Leaf muon) AND (Leaf gluon)) AND (Leaf foo)).
Proof. reflexivity. Qed.

(** A non-leading term without operator is left over by every pass. *)
Example group_terms_contract_violation :
  let a := mkTerm None title "a" in
  let b := mkTerm None title "b" in
  group_terms [a; b] = ContractViolation [Leaf a; Leaf b].
Proof. reflexivity. Qed.

Example group_terms_empty : group_terms [] = MatchAll.
Proof. reflexivity. Qed.

(** A pass neither drops nor duplicates nor reorders terms. *)
Lemma collapse_leaves op acc rest :
  all_leaves (collapse op acc rest) = leaves acc ++ all_leaves rest.
Proof.
  revert acc; induction rest as [|y rest IH]; intros acc; simpl.
  - reflexivity.
  - destruct (decide (joining_operator y = Some op)) as [Hy|Hy].
    + rewrite IH. simpl. unfold all_leaves. simpl. by rewrite <- app_assoc.
    + unfold all_leaves in *. simpl. by rewrite IH.
Qed.

Lemma fold_pass_leaves es op : all_leaves (fold_pass es op) = all_leaves es.
Proof. destruct es as [|x rest]; [done|]. apply collapse_leaves. Qed.

Lemma passes_leaves ops es :
  all_leaves (fold_left fold_pass ops es) = all_leaves es.
Proof.
  revert es; induction ops as [|op ops IH]; intros es; simpl; [done|].
  by rewrite IH, fold_pass_leaves.
Qed.

Lemma all_leaves_Leaf ts : all_leaves (map Leaf ts) = ts.
Proof. induction ts as [|t ts IH]; [done|]. unfold all_leaves in *. simpl. by f_equal. Qed.

(** A pass for [op] leaves no non-leading element joined by [op], and
    introduces no joining operator that was not there: the leading element
    keeps its joining operator, and so does every element that follows. *)
Lemma collapse_shape (P : option Operator -> Prop) op acc rest :
  Forall (fun e => P (joining_operator e)) rest ->
  exists hd tl,
    collapse op acc rest = hd :: tl
    /\ joining_operator hd = joining_operator acc
    /\ Forall (fun e => P (joining_operator e)
                        /\ joining_operator e <> Some op) tl.
Proof.
  revert acc; induction rest as [|y rest IH]; intros acc Hrest; simpl.
  - exists acc, []. by repeat split.
  - inversion Hrest as [|? ? Hy Hrest']; subst.
    destruct (decide (joining_operator y = Some op)) as [Heq|Hne].
    + destruct (IH (Node acc op y) Hrest') as (hd & tl & -> & Hhd & Htl).
      exists hd, tl. by repeat split.
    + destruct (IH y Hrest') as (hd & tl & -> & Hhd & Htl).
      exists acc, (hd :: tl). split; [done|]. split; [done|].
      constructor; [|done]. rewrite Hhd. by split.
Qed.

Lemma fold_pass_tail (P : option Operator -> Prop) op es :
  Forall (fun e => P (joining_operator e)) (tail es) ->
  Forall (fun e => P (joining_operator e) /\ joining_operator e <> Some op)
         (tail (fold_pass es op)).
Proof.
  destruct es as [|x rest]; simpl; intros Hrest; [constructor|].
  destruct (collapse_shape P op x rest Hrest) as (hd & tl & -> & _ & Htl).
  done.
Qed.

Lemma fold_pass_nonempty es op : es <> [] -> fold_pass es op <> [].
Proof.
  destruct es as [|x rest]; [done|]. intros _. simpl.
  destruct (collapse_shape (fun _ => True) op x rest) as (hd & tl & -> & _).
  - by apply Forall_forall.
  - done.
Qed.

(** After the three passes over a well-formed list only the root is left. *)
Lemma passes_single ts :
  ts <> [] -> well_formed ts = true ->
  exists e, fold_left fold_pass PRECEDENCE (map Leaf ts) = [e].
Proof.
  intros Hne Hwf. unfold PRECEDENCE. simpl.
  set (es0 := map Leaf ts).
  assert (H0 : Forall (fun e => joining_operator e <> None) (tail es0)).
  { unfold es0. destruct ts as [|t ts']; [done|]. simpl.
    unfold well_formed in Hwf. simpl in Hwf.
    rewrite forallb_forall in Hwf. apply Forall_forall. intros e He.
    apply list_elem_of_In in He. apply in_map_iff in He as (t' & <- & Hin).
    simpl. specialize (Hwf t' Hin). by apply bool_decide_eq_true in Hwf. }
  pose proof (fold_pass_tail (fun o => o <> None) NOT es0 H0) as H1.
  pose proof (fold_pass_tail (fun o => o <> None /\ o <> Some NOT) AND _ H1) as H2.
  pose proof (fold_pass_tail
                (fun o => (o <> None /\ o <> Some NOT) /\ o <> Some AND) OR _ H2) as H3.
  assert (Hne3 : fold_pass (fold_pass (fold_pass es0 NOT) AND) OR <> []).
  { do 3 apply fold_pass_nonempty. unfold es0. by destruct ts. }
  destruct (fold_pass (fold_pass (fold_pass es0 NOT) AND) OR) as [|e [|e' tl]];
    [done|by exists e|].
  simpl in H3. inversion H3 as [|? ? (((Hnone & Hnot) & Hand) & Hor) _]; subst.
  destruct (joining_operator e') as [[]|]; congruence.
Qed.

(** With every non-leading element joined by [op], a pass for [op]
    collapses the whole list to the left. *)
Lemma collapse_all op acc rest :
  Forall (fun e => joining_operator e = Some op) rest ->
  collapse op acc rest = [fold_left (fun l r => Node l op r) rest acc].
Proof.
  revert acc; induction rest as [|y rest IH]; intros acc Hrest; simpl; [done|].
  inversion Hrest; subst. rewrite decide_True by done. by apply IH.
Qed.

(** With no non-leading element joined by [op], a pass for [op] changes
    nothing. *)
Lemma collapse_none op acc rest :
  Forall (fun e => joining_operator e <> Some op) rest ->
  collapse op acc rest = acc :: rest.
Proof.
  revert acc; induction rest as [|y rest IH]; intros acc Hrest; simpl; [done|].
  inversion Hrest; subst. rewrite decide_False by done. f_equal. by apply IH.
Qed.

Lemma fold_left_Leaf op (ts : list FieldedSearchTerm) acc :
  fold_left (fun l r => Node l op r) (map Leaf ts) acc
  = fold_left (fun l t => Node l op (Leaf t)) ts acc.
Proof. revert acc; induction ts as [|t ts IH]; intros acc; simpl; [done|]. apply IH. Qed.

(** A chain joined throughout by one operator groups to the left. *)
Lemma group_terms_chain op a (joined : list FieldedSearchTerm) :
  Forall (fun t => operator t = Some op) joined ->
  group_terms (a :: joined)
  = Grouped (fold_left (fun l t => Node l op (Leaf t)) joined (Leaf a)).
Proof.
  intros Hop. unfold group_terms, PRECEDENCE. simpl.
  assert (Hall : Forall (fun e => joining_operator e = Some op) (map Leaf joined)).
  { apply Forall_forall. intros e He. apply list_elem_of_In in He.
    apply in_map_iff in He as (t & <- & Hin). simpl.
    rewrite Forall_forall in Hop. apply Hop. by apply list_elem_of_In. }
  assert (Hother : forall op', op' <> op ->
            Forall (fun e => joining_operator e <> Some op') (map Leaf joined)).
  { intros op' Hne. eapply Forall_impl; [exact Hall|]. simpl. intros e ->. congruence. }
  destruct op.
  - rewrite (collapse_none NOT) by (by apply Hother).
    simpl. rewrite (collapse_all AND) by done. simpl. by rewrite fold_left_Leaf.
  - rewrite (collapse_none NOT) by (by apply Hother).
    simpl. rewrite (collapse_none AND) by (by apply Hother).
    simpl. rewrite (collapse_all OR) by done. by rewrite fold_left_Leaf.
  - rewrite (collapse_all NOT) by done. simpl. by rewrite fold_left_Leaf.
Qed.

(** C1: the grouper is left-associative with precedence NOT > AND > OR.
    The clause list [A, OR B, NOT C, AND D] groups to exactly the tree
    (A OR ((B NOT C) AND D)), whatever the fields and texts of the four
    terms (and whatever operator the leading term carries); and a chain
    [a op b1 op b2 ...] joined by one operator throughout groups to
    (((a op b1) op b2) ...), never to the right. *)
Theorem group_terms_precedence_shape :
  (forall (opA : option Operator) (fA fB fC fD : Field) (tA tB tC tD : string),
     let A := mkTerm opA fA tA in
     let B := mkTerm (Some OR) fB tB in
     let C := mkTerm (Some NOT) fC tC in
     let D := mkTerm (Some AND) fD tD in
     group_terms [A; B; C; D]
     = Grouped (Node (Leaf A) OR
                  (Node (Node (Leaf B) NOT (Leaf C)) AND (Leaf D))))
  /\ (forall (op : Operator) (a : FieldedSearchTerm)
             (rest : list (Field * string)),
        let joined := map (fun ft => mkTerm (Some op) ft.1 ft.2) rest in
        group_terms (a :: joined)
        = Grouped (fold_left (fun l t => Node l op (Leaf t)) joined (Leaf a))).
Proof.
  split.
  - intros. reflexivity.
  - intros op a rest joined. apply group_terms_chain.
    apply Forall_forall. intros t Ht. unfold joined in Ht.
    apply list_elem_of_In in Ht. apply in_map_iff in Ht as (ft & <- & _). done.
Qed.

(** Whatever the list, an expression the grouper returns has the input
    terms as its leaves. *)
Lemma group_terms_leaves_any (terms : FieldedSearchList) e :
  group_terms terms = Grouped e -> leaves e = terms.
Proof.
  unfold group_terms. intros Hg.
  pose proof (passes_leaves PRECEDENCE (map Leaf terms)) as Hp.
  rewrite all_leaves_Leaf in Hp.
  destruct (fold_left fold_pass PRECEDENCE (map Leaf terms)) as [|e' [|e'' tl]];
    try discriminate.
  injection Hg as ->. unfold all_leaves in Hp. simpl in Hp.
  by rewrite app_nil_r in Hp.
Qed.

(** C2: for every non-empty clause list, an expression the grouper
    produces has as leaves, read left to right, the input list itself, so
    the multiset of its leaves is the multiset of input terms, none
    dropped and none duplicated; and the grouper does produce an
    expression whenever every non-leading term carries an operator. *)
Theorem group_terms_keeps_terms (terms : FieldedSearchList) :
  terms <> [] ->
  (forall e, group_terms terms = Grouped e ->
             leaves e = terms /\ Permutation (leaves e) terms)
  /\ (well_formed terms = true ->
      exists e, group_terms terms = Grouped e
                /\ leaves e = terms
                /\ Permutation (leaves e) terms).
Proof.
  intros Hne. split.
  - intros e He. apply group_terms_leaves_any in He. by rewrite He.
  - intros Hwf. destruct (passes_single terms Hne Hwf) as [e He].
    assert (Hg : group_terms terms = Grouped e)
      by (unfold group_terms; by rewrite He).
    exists e. split; [done|].
    apply group_terms_leaves_any in Hg. by rewrite Hg.
Qed.

Lemma group_terms_keeps_terms_witness :
  let terms := [mkTerm None title "muon"; mkTerm (Some OR) title "gluon";
                mkTerm (Some NOT) title "foo"; mkTerm (Some AND) title "boson"] in
  exists e, group_terms terms = Grouped e
            /\ leaves e = terms
            /\ Permutation (leaves e) terms.
Proof.
  intros terms.
  destruct (group_terms_keeps_terms terms) as [_ Hwf]; [done|].
  apply Hwf. reflexivity.
Defined.

End GrouperFacts.

(** ** The date subform *)

Section FormsFacts.
Import Forms.

(** Python's [>=] on dates is the negation of [<]. *)
Lemma date_ge_not_lt a b : date_ge a b = negb (date_lt a b).
Proof.
  unfold date_ge, date_gt, date_eqb, date_lt.
  destruct a as [ya ma da], b as [yb mb db]; simpl.
  destruct (Z.ltb_spec ya yb), (Z.ltb_spec yb ya), (Z.eqb_spec ya yb),
           (Z.eqb_spec yb ya), (Z.ltb_spec ma mb), (Z.ltb_spec mb ma),
           (Z.eqb_spec ma mb), (Z.eqb_spec mb ma), (Z.ltb_spec da db),
           (Z.ltb_spec db da), (Z.eqb_spec da db); simpl; try reflexivity; lia.
Qed.

(** C7, as amended: validation raises [ValidationError] when more than one
    of the four date options is selected, when a year is given that lies
    before 1991 or after the current date, and when the date-range option
    is selected with both bounds given and start >= end.  A form meeting
    the three constraints passes [validate_all_dates] and [validate_year];
    it passes [validate_date_range] exactly when, in addition, the
    date-range option is not selected without any bound. *)
Theorem date_form_validators (today : date) (form : DateForm) :
  (validate_all_dates form (all_dates form)
   = if at_most_one_selected form then Valid
     else ValidationError "Only one date filter may be selected")
  /\ (validate_year today form (form_year form)
      = if year_in_range today form then Valid
        else ValidationError "Not a valid publication year")
  /\ (validate_date_range form (date_range form)
      = if negb (bound_given form)
        then ValidationError "Must select start and/or end date(s)"
        else if range_ordered form then Valid
        else ValidationError "End date must be later than start date").
Proof.
  split; [|split].
  - unfold validate_all_dates, at_most_one_selected, selected_count. simpl.
    destruct (all_dates form), (past_12 form), (specific_year form),
             (date_range form); reflexivity.
  - unfold validate_year, year_in_range.
    destruct (form_year form) as [d|]; [|reflexivity].
    destruct (date_lt d _), (date_gt d today); reflexivity.
  - unfold validate_date_range, range_ordered, bound_given.
    destruct (date_range form); simpl.
    + destruct (from_date form) as [f|], (to_date form) as [t|]; simpl;
        try reflexivity.
      rewrite date_ge_not_lt. destruct (date_lt f t); reflexivity.
    + destruct (from_date form), (to_date form); reflexivity.
Qed.

(** C7, the claim as stated fails: a form with only the date-range option
    selected and neither bound given meets the three constraints (one
    option selected, no year, no pair of bounds out of order), and
    [validate_date_range] raises. *)
Lemma date_range_without_bounds_raises :
  let form := mkDateForm false false false None true None None in
  let today := mkDate 2018 3 1 in
  at_most_one_selected form = true
  /\ year_in_range today form = true
  /\ bounds_ordered form = true
  /\ validate_date_range form (date_range form)
     = ValidationError "Must select start and/or end date(s)".
Proof. repeat split. Qed.

(** With the date-range option not selected, the bounds are not compared. *)
Example date_range_unselected_not_compared :
  let form := mkDateForm true false false None false
                (Some (mkDate 2018 2 1)) (Some (mkDate 2017 2 1)) in
  validate_date_range form (date_range form) = Valid.
Proof. reflexivity. Qed.

End FormsFacts.

(** ** The legacy index service *)

Section LegacyFacts.
Import Py Legacy.
Context `{Client}.

(** What [_transform] leaves under each key of the document. *)
Lemma _transform_lookup (raw : Hit) (key : string) :
  _transform raw !! key
  = if decide (key = "type") then Some (_type raw)
    else if decide (key = "score") then Some (_score raw)
    else _source raw !! key.
Proof.
  unfold _transform.
  destruct (decide (key = "type")) as [->|Hty].
  - by rewrite lookup_insert_eq.
  - rewrite lookup_insert_ne by done.
    destruct (decide (key = "score")) as [->|Hsc].
    + by rewrite lookup_insert_eq.
    + by rewrite lookup_insert_ne.
Qed.

(** C5: whatever response the backend returns, [search] returns a result
    set (it raises nothing) whose count is the backend's total, not the
    number of hits returned, and whose results are the hits in the order
    the backend gave them, the i-th being the i-th hit's source document
    with the hit's score under ['score'] and its type tag under ['type'];
    a response with total 0 and no hits gives count 0 and no results. *)
Theorem legacy_search_result_set :
  (forall resp : SearchResponse,
     exists rs : ResultSet,
       search (Returns resp) = Returns rs
       /\ count rs = total resp
       /\ length (results rs) = length (hits resp)
       /\ forall i : nat, results rs !! i = _transform <$> (hits resp !! i))
  /\ (forall raw : Hit,
        _transform raw !! "score" = Some (_score raw)
        /\ _transform raw !! "type" = Some (_type raw)
        /\ forall key : string,
             _transform raw !! key
             = if decide (key = "type") then Some (_type raw)
               else if decide (key = "score") then Some (_score raw)
               else _source raw !! key)
  /\ search (Returns (mkResponse 0 [])) = Returns (mkResultSet 0 []).
Proof.
  split; [|split].
  - intros resp. eexists. split; [reflexivity|]. simpl.
    split; [done|]. split; [by rewrite length_fmap|].
    intros i. by rewrite list_lookup_fmap.
  - intros raw. split; [|split].
    + by rewrite _transform_lookup.
    + by rewrite _transform_lookup.
    + apply _transform_lookup.
  - reflexivity.
Qed.

(** The count is the total even when fewer hits are returned. *)
Example legacy_search_page :
  let hit1 := mkHit {[ "title" := PyStr "muon" ]} (PyFloat 4607182418800017408) (PyStr "arxiv") in
  let hit2 := mkHit {[ "title" := PyStr "gluon" ]} (PyFloat 4602678819172646912) (PyStr "arxiv") in
  search (Returns (mkResponse 57 [hit1; hit2]))
  = Returns (mkResultSet 57
       [ <["type" := PyStr "arxiv"]> (<["score" := PyFloat 4607182418800017408]> {[ "title" := PyStr "muon" ]});
         <["type" := PyStr "arxiv"]> (<["score" := PyFloat 4602678819172646912]> {[ "title" := PyStr "gluon" ]}) ]).
Proof. reflexivity. Qed.

End LegacyFacts.

(** ** The index service *)

Section IndexFacts.
Import Py Index.
Local Open Scope service_scope.
Context `{Collaborators} `{Client}.
Variable be : Backend.

Ltac run := unfold bind, ret, raise, logger, lift, request; simpl.

(** C9, what the code does: [cluster_available] returns [True] when the
    health request returns.  When the request raises, the [except] clause
    first evaluates [str(e)]: if that returns, the failure is logged and
    [False] is returned; if that raises, as the client's rendering of a
    transport fault can, the exception leaves [cluster_available] and
    reaches the caller, with nothing logged.  The health request is the
    only request made. *)
Theorem cluster_available_outcomes (st : State) :
  let asked := {| history := history st ++ [CHealth]; log := log st |} in
  match cluster_health be (history st) with
  | Returns _ => cluster_available be st = (Returns true, asked)
  | Raises e =>
      match ext_str e with
      | Returns rendered =>
          cluster_available be st
          = (Returns false,
             {| history := history st ++ [CHealth];
                log := log st ++ [mkLog DEBUG "Health check failed: %s"
                                    [PyStr rendered]] |})
      | Raises x => cluster_available be st = (Raises x, asked)
      end
  end.
Proof.
  unfold cluster_available. run.
  destruct (cluster_health be (history st)) as [[]|e]; simpl; [done|].
  destruct e; simpl; try done;
    by destruct (transport_str _) as [rendered|x].
Qed.

(** C4, what the code does: an exception of the guarded block that is none
    of [NotFoundError], [TransportError], [SerializationError],
    [BulkIndexError] is logged and then suppressed, not re-raised: the
    [with] statement ends normally.  [get_document], whose lookup raised
    it, goes on to read the unassigned [record] and raises
    [UnboundLocalError]. *)
Theorem unhandled_exception_suppressed
    (create_index' : M unit) (name msg : string) (c : Call) (st : State)
    (depth : nat) (s : SearchSession) (document_id : Z) :
  handle_es_exceptions create_index'
    (request c (fun _ => Raises (OtherException name msg) : Outcome ext_exn unit)) st
  = (Returns None,
     {| history := history st ++ [c];
        log := log st ++ [mkLog ERROR "Unhandled exception: %s" []] |})
  /\ (es_get be (history st) (index s) document_id
      = Raises (OtherException name msg) ->
      fst (get_document be depth s document_id st)
      = Raises (UnboundLocalError "record")).
Proof.
  split.
  - reflexivity.
  - intros Hget. unfold get_document, handle_es_exceptions. run.
    rewrite Hget. reflexivity.
Qed.

(** C6, as amended: at the transport boundary a not-found fault is raised
    as [DocumentNotFound]; a transport fault whose error is
    [parsing_exception] is raised as [QueryError]; one whose error is
    [mapper_parsing_exception] is raised as [MappingError]; one whose
    error is [resource_already_exists_exception] is suppressed; one whose
    error is [index_not_found_exception] first runs [create_index], whose
    exception, if any, propagates, and then becomes
    [IndexConnectionError]; every other transport fault becomes
    [IndexConnectionError].  [get_document] raises [DocumentNotFound] when
    the lookup raises a not-found fault or returns an empty record,
    returns the document when the lookup returns a record, and raises no
    [DocumentNotFound] on any other fault (an [index_not_found_exception]
    apart). *)
Theorem transport_fault_translation
    (A : Type) (create_index' : M unit) (error info : string) (st : State)
    (depth : nat) (s : SearchSession) (document_id : Z) :
  on_exception (A:=A) create_index' (External (NotFoundError error info)) st
  = (Raises (DocumentNotFound "No such document"), st)
  /\ fst (on_exception (A:=A) create_index'
            (External (TransportError "parsing_exception" info)) st)
     = Raises (QueryError info)
  /\ fst (on_exception (A:=A) create_index'
            (External (TransportError "mapper_parsing_exception" info)) st)
     = Raises (MappingError ("Invalid mapping: " +:+ info))
  /\ fst (on_exception (A:=A) create_index'
            (External (TransportError "resource_already_exists_exception" info)) st)
     = Returns None
  /\ fst (on_exception (A:=A) create_index'
            (External (TransportError "index_not_found_exception" info)) st)
     = match fst (create_index'
                    {| history := history st;
                       log := log st ++ [mkLog ERROR "index_not_found_exception" []] |})
       with
       | Returns _ =>
           Raises (IndexConnectionError
                     "Problem communicating with ES: index_not_found_exception")
       | Raises e => Raises e
       end
  /\ (error ∉ singled_out_errors ->
      fst (on_exception (A:=A) create_index'
             (External (TransportError error info)) st)
      = Raises (IndexConnectionError
                  ("Problem communicating with ES: " +:+ error)))
  /\ match es_get be (history st) (index s) document_id with
     | Returns (Some source) =>
         fst (get_document be depth s document_id st) = Returns source
     | Returns None | Raises (NotFoundError _ _) =>
         fst (get_document be depth s document_id st)
         = Raises (DocumentNotFound "No such document")
     | Raises (TransportError error' _) =>
         error' <> "index_not_found_exception" ->
         forall msg, fst (get_document be depth s document_id st)
                     <> Raises (DocumentNotFound msg)
     | Raises _ =>
         forall msg, fst (get_document be depth s document_id st)
                     <> Raises (DocumentNotFound msg)
     end.
Proof.
  repeat split.
  - simpl. run. by destruct (create_index' _) as [[|] ?].
  - intros Hother. unfold singled_out_errors in Hother.
    unfold on_exception. run.
    repeat (case_bool_decide; [subst; exfalso; apply Hother; set_solver|]).
    reflexivity.
  - unfold get_document, handle_es_exceptions. run.
    destruct (es_get be (history st) (index s) document_id) as [[source|]|e];
      simpl; [done|done|].
    destruct e; simpl; try done; try (intros msg; run; congruence).
    intros Hne msg. run.
    repeat (case_bool_decide; simpl; try congruence).
Qed.

(** *** No clause of the handler raises [OutsideAllowedRange] *)

Lemma on_exception_not_outside (A : Type) (create_index' : M unit) (e : exn)
    (st : State) :
  (forall st' msg, fst (create_index' st') <> Raises (OutsideAllowedRange msg)) ->
  forall msg, fst (on_exception (A:=A) create_index' e st)
              <> Raises (OutsideAllowedRange msg).
Proof.
  intros Hci msg.
  destruct e as [[error info|error info|m|m|m|n m]| | | | | | | | | | | |];
    simpl; run; try congruence.
  repeat (case_bool_decide; simpl; try congruence).
  match goal with
  | |- context [create_index' ?st0] =>
      pose proof (Hci st0 msg) as Hst0;
      destruct (create_index' st0) as [[u|e'] st1]; simpl in *; congruence
  end.
Qed.

Lemma handle_not_outside (A : Type) (create_index' : M unit) (body : M A)
    (st : State) :
  (forall st' msg, fst (create_index' st') <> Raises (OutsideAllowedRange msg)) ->
  forall msg, fst (handle_es_exceptions create_index' body st)
              <> Raises (OutsideAllowedRange msg).
Proof.
  intros Hci msg. unfold handle_es_exceptions.
  destruct (body st) as [[a|e] st']; simpl; [congruence|].
  by apply on_exception_not_outside.
Qed.

(** What runs on the current session raises what the method raises, or
    the failure to get the session. *)
Lemma on_current_not_outside (method : SearchSession -> M unit) :
  (forall s st msg, fst (method s st) <> Raises (OutsideAllowedRange msg)) ->
  forall st msg,
    fst ((session <- current_session be ;; method session) st)
    <> Raises (OutsideAllowedRange msg).
Proof.
  intros Hmethod st msg. unfold bind, current_session.
  destruct (fst (app_session be)) as [session|fault]; simpl.
  - apply Hmethod.
  - destruct fault; simpl; congruence.
Qed.

Lemma create_index_not_outside (depth : nat) (s : SearchSession) (st : State)
    (msg : string) :
  fst (create_index be depth s st) <> Raises (OutsideAllowedRange msg).
Proof.
  revert s st msg. induction depth as [|depth IH]; intros s st msg.
  - simpl. congruence.
  - cbn [create_index]. unfold bind at 1, logger at 1.
    destruct (mapping s) as [path|]; [|simpl; congruence].
    case_bool_decide; cbn [negb]; [simpl; congruence|].
    unfold bind at 1.
    match goal with
    | |- context [handle_es_exceptions ?ci ?body ?st0] =>
        pose proof (handle_not_outside _ ci body st0
                      (on_current_not_outside _ IH) msg) as Hh;
        destruct (handle_es_exceptions ci body st0) as [[r|e] st1];
        simpl in *; congruence
    end.
Qed.

Lemma current_create_index_not_outside (depth : nat) (st : State)
    (msg : string) :
  fst (current_create_index be depth st) <> Raises (OutsideAllowedRange msg).
Proof.
  apply (on_current_not_outside (create_index be depth)).
  intros s st' msg'. apply create_index_not_outside.
Qed.

(** C3: with [MAX_RESULTS] non-negative and a positive page size,
    [max_pages] is the floor of [MAX_RESULTS / page_size]; when the page
    requested is beyond it, [search] raises [OutsideAllowedRange] having
    made no request to the backend (the request history is unchanged, only
    the error is logged); when the page is within it, [search] raises no
    [OutsideAllowedRange] (the query preparation raising none itself). *)
Theorem search_pagination_guard
    (depth : nat) (s : SearchSession) (query : Query) (st : State) :
  (0 <= MAX_RESULTS)%Z ->
  (0 < page_size query)%Z ->
  (forall cs p ps c msg,
     prepare_advanced cs p ps c <> Raises (OutsideAllowedRange msg)) ->
  (forall cs p ps c msg,
     prepare_simple cs p ps c <> Raises (OutsideAllowedRange msg)) ->
  max_pages query = (MAX_RESULTS / page_size query)%Z
  /\ ((max_pages query < page query)%Z ->
      search be depth s query st
      = (Raises (OutsideAllowedRange (outside_message query)),
         {| history := history st;
            log := log st ++ [mkLog ERROR (outside_message query) []] |}))
  /\ ((page query <= max_pages query)%Z ->
      forall msg, fst (search be depth s query st)
                  <> Raises (OutsideAllowedRange msg)).
Proof.
  intros Hmax Hsize Hadv Hsim.
  assert (Hz : (page_size query =? 0)%Z = false) by (apply Z.eqb_neq; lia).
  split; [|split].
  - unfold max_pages. apply Z.quot_div_nonneg; lia.
  - intros Hbeyond. unfold search. rewrite Hz.
    assert (Hgt : (page query >? max_pages query)%Z = true)
      by (apply Z.gtb_lt; lia).
    rewrite Hgt. reflexivity.
  - intros Hwithin msg. unfold search. rewrite Hz.
    assert (Hgt : (page query >? max_pages query)%Z = false).
    { rewrite Z.gtb_ltb. apply Z.ltb_ge. lia. }
    rewrite Hgt. run.
    destruct (prepare_query (Search_new (index s)) query) as [cs|e] eqn:Hprep;
      simpl.
    + match goal with
      | |- context [handle_es_exceptions ?ci ?body ?st0] =>
          pose proof (handle_not_outside _ ci body st0
                        (current_create_index_not_outside depth) msg) as Hh;
          destruct (handle_es_exceptions ci body st0) as [[[r|]|e] st1];
          simpl in *; congruence
      end.
    + intros [= ->]. unfold prepare_query in Hprep.
      destruct (kind query).
      * destruct (prepare_advanced _ _ _ _) as [cs|e] eqn:Ha; [done|].
        destruct e; try discriminate. injection Hprep as <-.
        by eapply Hadv.
      * destruct (prepare_simple _ _ _ _) as [cs|e] eqn:Ha; [done|].
        destruct e; try discriminate. injection Hprep as <-.
        by eapply Hsim.
      * discriminate.
Qed.

(** *** The requests the handler and [create_index] add to the history *)

Lemma on_exception_history (A : Type) (create_index' : M unit) (e : exn)
    (st : State) :
  (forall st', exists more,
      history (snd (create_index' st')) = history st' ++ more
      /\ forallb is_create more = true) ->
  exists more,
    history (snd (on_exception (A:=A) create_index' e st)) = history st ++ more
    /\ forallb is_create more = true.
Proof.
  intros Hci.
  assert (Hnil : exists more, history st = history st ++ more
                              /\ forallb is_create more = true).
  { exists []. by rewrite app_nil_r. }
  destruct e as [[error info|error info|m|m|m|n m]| | | | | | | | | | | |];
    simpl; run; try exact Hnil.
  repeat (case_bool_decide; simpl; try exact Hnil).
  match goal with
  | |- context [create_index' ?st0] =>
      destruct (Hci st0) as (more & Hm & Hc);
      destruct (create_index' st0) as [[u|e'] st1]; simpl in *;
      exists more; by rewrite Hm
  end.
Qed.

Lemma handle_history (A : Type) (create_index' : M unit) (body : M A)
    (st : State) :
  (forall st', exists more,
      history (snd (create_index' st')) = history st' ++ more
      /\ forallb is_create more = true) ->
  exists more,
    history (snd (handle_es_exceptions create_index' body st))
    = history (snd (body st)) ++ more
    /\ forallb is_create more = true.
Proof.
  intros Hci. unfold handle_es_exceptions.
  destruct (body st) as [[a|e] st']; simpl.
  - exists []. by rewrite app_nil_r.
  - by apply on_exception_history.
Qed.

Lemma on_current_history (method : SearchSession -> M unit) :
  (forall s st, exists more,
      history (snd (method s st)) = history st ++ more
      /\ forallb is_create more = true) ->
  forall st, exists more,
    history (snd ((session <- current_session be ;; method session) st))
    = history st ++ more
    /\ forallb is_create more = true.
Proof.
  intros Hmethod st. unfold bind, current_session.
  destruct (fst (app_session be)) as [session|fault]; simpl.
  - match goal with
    | |- context [method session ?st0] =>
        destruct (Hmethod session st0) as (more & Hm & Hc)
    end.
    exists more. by rewrite Hm.
  - exists []. by rewrite app_nil_r.
Qed.

Lemma create_index_history (depth : nat) (s : SearchSession) (st : State) :
  exists more,
    history (snd (create_index be depth s st)) = history st ++ more
    /\ forallb is_create more = true.
Proof.
  revert s st. induction depth as [|depth IH]; intros s st.
  - exists []. simpl. by rewrite app_nil_r.
  - cbn [create_index]. unfold bind at 1, logger at 1.
    destruct (mapping s) as [path|];
      [|exists []; simpl; by rewrite app_nil_r].
    case_bool_decide; cbn [negb]; [exists []; simpl; by rewrite app_nil_r|].
    unfold bind at 1.
    match goal with
    | |- context [handle_es_exceptions ?ci ?body ?st0] =>
        set (body0 := body); set (state0 := st0);
        destruct (handle_history _ ci body0 state0 (on_current_history _ IH))
          as (more & Hm & Hc)
    end.
    assert (Hbody : exists pre, history (snd (body0 state0)) = history st ++ pre
                                /\ forallb is_create pre = true).
    { unfold body0, state0. run.
      destruct (load_mapping be path) as [mappings|e]; simpl.
      - by exists [CCreate (index s) mappings].
      - exists []. by rewrite app_nil_r. }
    destruct Hbody as (pre & Hpre & Hcp).
    destruct (handle_es_exceptions _ body0 state0) as [[r|e] st1];
      simpl in *; exists (pre ++ more);
      rewrite Hm, Hpre, <- app_assoc; (split; [done|]);
      rewrite forallb_app, Hcp, Hc; done.
Qed.

Lemma current_create_index_history (depth : nat) (st : State) :
  exists more,
    history (snd (current_create_index be depth st)) = history st ++ more
    /\ forallb is_create more = true.
Proof.
  apply (on_current_history (create_index be depth)).
  intros s st'. apply create_index_history.
Qed.

(** The window of a page from 1 on, of positive size, has no negative
    bound: the slice is accepted. *)
Lemma slice_of_page (current_search : Search) (query : Query) :
  (0 < page_size query)%Z ->
  (1 <= page query)%Z ->
  slice current_search (page_start query) (page_end query)
  = Returns (Search_slice current_search (page_start query) (page_end query)).
Proof.
  intros Hsize Hpage. unfold slice, page_end, page_start.
  assert (Hstart : (0 <= (page query - 1) * page_size query)%Z) by nia.
  rewrite (proj2 (Z.ltb_ge _ _)) by lia.
  rewrite (proj2 (Z.ltb_ge _ _)) by lia.
  reflexivity.
Qed.

(** C8: a query that is neither an [AdvancedQuery] nor a [SimpleQuery] and
    passes the pagination guard (its page from 1 on, its page size
    positive) raises no query-kind error: the dispatch hands back the base
    search as it is, neither preparation is applied, the slice to the page
    is accepted, and the request made to the backend is the base search
    with highlighting, sliced to the page; when the backend answers,
    [search] returns the transformed answer. *)
Theorem search_unknown_query_kind
    (depth : nat) (s : SearchSession) (query : Query) (st : State) :
  kind query = IsOtherQuery ->
  (0 < page_size query)%Z ->
  (1 <= page query)%Z ->
  (page query <= max_pages query)%Z ->
  let sliced := Search_slice (prepare_highlight (Search_new (index s)))
                             (page_start query) (page_end query) in
  prepare_query (Search_new (index s)) query = Returns (Search_new (index s))
  /\ slice (prepare_highlight (Search_new (index s)))
           (page_start query) (page_end query) = Returns sliced
  /\ (exists more,
        history (snd (search be depth s query st))
        = history st ++ CExecute sliced :: more
        /\ forallb is_create more = true)
  /\ (forall resp,
        execute be (history st) sliced = Returns resp ->
        search be depth s query st
        = (Returns (results_to_documentset (page query) (page_size query)
                                           (content query) resp),
           {| history := history st ++ [CExecute sliced];
              log := log st
                     ++ [mkLog DEBUG "got current_search request %s"
                           [PyStr (Query_str (page query) (page_size query)
                                             (content query))]] |})).
Proof.
  intros Hkind Hsize Hpage Hwithin sliced.
  assert (Hz : (page_size query =? 0)%Z = false) by (apply Z.eqb_neq; lia).
  assert (Hgt : (page query >? max_pages query)%Z = false).
  { rewrite Z.gtb_ltb. apply Z.ltb_ge. lia. }
  assert (Hprep : prepare_query (Search_new (index s)) query
                  = Returns (Search_new (index s))).
  { unfold prepare_query. by rewrite Hkind. }
  assert (Hslice : slice (prepare_highlight (Search_new (index s)))
                         (page_start query) (page_end query) = Returns sliced)
    by (by apply slice_of_page).
  assert (Hrun : search be depth s query st
                 = (resp <- handle_es_exceptions (current_create_index be depth)
                              (request (CExecute sliced)
                                       (fun h => execute be h sliced)) ;;
                    match resp with
                    | None => raise (UnboundLocalError "resp")
                    | Some resp =>
                        ret (results_to_documentset (page query)
                               (page_size query) (content query) resp)
                    end)
                     {| history := history st;
                        log := log st
                               ++ [mkLog DEBUG "got current_search request %s"
                                     [PyStr (Query_str (page query)
                                               (page_size query)
                                               (content query))]] |}).
  { unfold search. rewrite Hz, Hgt.
    unfold bind at 1, logger at 1. unfold bind at 1, lift at 1.
    rewrite Hprep. cbv beta iota. rewrite Hslice. reflexivity. }
  split; [exact Hprep|]. split; [exact Hslice|]. split.
  - rewrite Hrun. unfold bind at 1.
    match goal with
    | |- context [handle_es_exceptions ?ci ?body ?st0] =>
        destruct (handle_history _ ci body st0
                    (current_create_index_history depth))
          as (more & Hm & Hc);
        destruct (handle_es_exceptions ci body st0) as [[[r|]|e] st1];
        simpl in *; exists more; rewrite Hm, <- app_assoc; done
    end.
  - intros resp Hresp. rewrite Hrun.
    unfold bind, handle_es_exceptions, request. cbn [history log].
    rewrite Hresp. reflexivity.
Qed.

(** *** Histories compose *)

Lemma grows_ret (A : Type) (a : A) : grows (ret a).
Proof. intros st. exists []. simpl. by rewrite app_nil_r. Qed.

Lemma grows_raise (A : Type) (e : exn) : grows (raise (A:=A) e).
Proof. intros st. exists []. simpl. by rewrite app_nil_r. Qed.

Lemma grows_logger lvl template args : grows (logger lvl template args).
Proof. intros st. exists []. simpl. by rewrite app_nil_r. Qed.

Lemma grows_request (A : Type) (c : Call) (answer : list Call -> Outcome ext_exn A) :
  grows (request c answer).
Proof. intros st. by exists [c]. Qed.

Lemma grows_bind (A B : Type) (m : M A) (k : A -> M B) :
  grows m -> (forall a, grows (k a)) -> grows (bind m k).
Proof.
  intros Hm Hk st. unfold bind. destruct (Hm st) as [more Hmore].
  destruct (m st) as [[a|e] st1]; simpl in *.
  - destruct (Hk a st1) as [more' Hmore']. exists (more ++ more').
    by rewrite Hmore', Hmore, <- app_assoc.
  - by exists more.
Qed.

Lemma grows_create_index depth s : grows (create_index be depth s).
Proof.
  intros st. destruct (create_index_history depth s st) as (more & Hm & _).
  by exists more.
Qed.

Lemma grows_handle (A : Type) depth (body : M A) :
  grows body -> grows (handle_es_exceptions (current_create_index be depth) body).
Proof.
  intros Hbody st. destruct (Hbody st) as [pre Hpre].
  destruct (handle_history _ (current_create_index be depth) body st
              (current_create_index_history depth)) as (more & Hm & _).
  exists (pre ++ more). by rewrite Hm, Hpre, <- app_assoc.
Qed.

(** With no mapping configured, [create_index] raises before any request. *)
Lemma create_index_mapping_not_set depth s st :
  mapping_set s = false ->
  create_index be (S depth) s st
  = (Raises (IndexingError "Mapping not set"),
     {| history := history st;
        log := log st ++ [mkLog DEBUG ("create ES index " +:+ dq +:+ "%s" +:+ dq)
                                [PyStr (index s)]] |}).
Proof.
  unfold mapping_set. intros Hset. simpl. run.
  destruct (mapping s) as [path|]; [|done].
  by rewrite Hset.
Qed.

(** With the mapping loaded and the create request accepted,
    [create_index] makes that one request and returns. *)
Lemma create_index_accepted depth s st path mappings :
  mapping s = Some path ->
  path <> EmptyString ->
  load_mapping be path = Returns mappings ->
  indices_create be (history st) (index s) mappings = Returns tt ->
  create_index be (S depth) s st
  = (Returns tt,
     {| history := history st ++ [CCreate (index s) mappings];
        log := log st ++ [mkLog DEBUG ("create ES index " +:+ dq +:+ "%s" +:+ dq)
                                [PyStr (index s)]] |}).
Proof.
  intros Hmap Hpath Hload Hcreate. simpl. run. rewrite Hmap.
  rewrite bool_decide_eq_false_2 by done. simpl.
  unfold handle_es_exceptions. run. rewrite Hload. simpl. rewrite Hcreate.
  reflexivity.
Qed.

(** The guarded block of [add_document] and of [bulk_add_documents] opens
    with the indexing request. *)
Lemma add_block_history depth s document st :
  exists more,
    history (snd (handle_es_exceptions (current_create_index be depth)
                    (let ident := ident_of document in
                     logger DEBUG "{ident}: index document" [ident] ;;;
                     request (CIndex (index s) ident document)
                             (fun h => es_index be h (index s) ident document))
                    st))
    = history st ++ CIndex (index s) (ident_of document) document :: more.
Proof.
  match goal with
  | |- context [handle_es_exceptions ?ci ?body ?st0] =>
      destruct (handle_history _ ci body st0
                  (current_create_index_history depth))
        as (more & Hm & _)
  end.
  exists more. rewrite Hm. run. by rewrite <- app_assoc.
Qed.

Lemma bulk_block_history depth s documents docs_per_chunk st :
  exists more,
    history (snd (handle_es_exceptions (current_create_index be depth)
                    (let actions := bulk_actions s documents in
                     request (CBulk actions docs_per_chunk)
                             (fun h => helpers_bulk be h actions docs_per_chunk) ;;;
                     logger DEBUG "added %i documents to index"
                            [PyInt (Z.of_nat (length documents))])
                    st))
    = history st ++ CBulk (bulk_actions s documents) docs_per_chunk :: more.
Proof.
  match goal with
  | |- context [handle_es_exceptions ?ci ?body ?st0] =>
      destruct (handle_history _ ci body st0
                  (current_create_index_history depth))
        as (more & Hm & _)
  end.
  exists more. rewrite Hm. run.
  destruct (helpers_bulk be (history st) _ _) as [[]|e]; simpl;
    by rewrite <- app_assoc.
Qed.

Lemma bind_request (A B : Type) (c : Call)
    (answer : list Call -> Outcome ext_exn A) (k : A -> M B) (st : State) :
  bind (request c answer) k st
  = match answer (history st) with
    | Returns a => k a {| history := history st ++ [c]; log := log st |}
    | Raises e =>
        (Raises (External e), {| history := history st ++ [c]; log := log st |})
    end.
Proof. unfold bind, request. by destruct (answer (history st)). Qed.

Lemma bind_logger (B : Type) lvl template args (k : unit -> M B) (st : State) :
  bind (logger lvl template args) k st
  = k tt {| history := history st;
            log := log st ++ [mkLog lvl template args] |}.
Proof. reflexivity. Qed.

(** C10, as amended: [add_document] and [bulk_add_documents] first ask the
    backend whether the target index exists.  When it does, the indexing
    request follows the check directly.  When it does not, [create_index]
    runs before any indexing request: with a mapping configured and loaded
    and the create request accepted, the create request follows the check
    and the indexing request follows the create request; with no mapping
    configured, [IndexingError('Mapping not set')] is raised and no
    request other than the check is made. *)
Theorem index_checked_before_indexing
    (depth : nat) (s : SearchSession) (document : Document)
    (documents : list Document) (docs_per_chunk : Z) (st : State) :
  let checked := history st ++ [CExists (index s)] in
  let index_request := CIndex (index s) (ident_of document) document in
  let bulk_request := CBulk (bulk_actions s documents) docs_per_chunk in
  ((exists more,
      history (snd (add_document be depth s document st)) = checked ++ more)
   /\ (exists more,
         history (snd (bulk_add_documents be depth s documents docs_per_chunk st))
         = checked ++ more))
  /\ (indices_exists be (history st) (index s) = Returns true ->
      (exists more,
         history (snd (add_document be depth s document st))
         = checked ++ index_request :: more)
      /\ (exists more,
            history (snd (bulk_add_documents be depth s documents docs_per_chunk st))
            = checked ++ bulk_request :: more))
  /\ (indices_exists be (history st) (index s) = Returns false ->
      mapping_set s = false ->
      (fst (add_document be (S depth) s document st)
       = Raises (IndexingError "Mapping not set")
       /\ history (snd (add_document be (S depth) s document st)) = checked)
      /\ (fst (bulk_add_documents be (S depth) s documents docs_per_chunk st)
          = Raises (IndexingError "Mapping not set")
          /\ history (snd (bulk_add_documents be (S depth) s documents
                             docs_per_chunk st)) = checked))
  /\ (forall path mappings,
        indices_exists be (history st) (index s) = Returns false ->
        mapping s = Some path ->
        path <> EmptyString ->
        load_mapping be path = Returns mappings ->
        indices_create be checked (index s) mappings = Returns tt ->
        (exists more,
           history (snd (add_document be (S depth) s document st))
           = checked ++ CCreate (index s) mappings :: index_request :: more)
        /\ (exists more,
              history (snd (bulk_add_documents be (S depth) s documents
                              docs_per_chunk st))
              = checked ++ CCreate (index s) mappings :: bulk_request :: more)).
Proof.
  intros checked index_request bulk_request.
  split; [|split; [|split]].
  - split.
    + unfold add_document, bind at 1, request at 1. simpl.
      destruct (indices_exists be (history st) (index s)) as [b|e]; simpl;
        [|exists []; by rewrite app_nil_r].
      match goal with
      | |- context [bind ?m ?k ?st1] =>
          assert (Hg : grows (bind m k)); [|exact (Hg st1)]
      end.
      apply grows_bind.
      { destruct b; simpl; [apply grows_ret|apply grows_create_index]. }
      intros _. apply grows_bind; [|intros; apply grows_ret].
      apply grows_handle. apply grows_bind; [apply grows_logger|].
      intros _. apply grows_request.
    + unfold bulk_add_documents, bind at 1, request at 1. simpl.
      destruct (indices_exists be (history st) (index s)) as [b|e]; simpl;
        [|exists []; by rewrite app_nil_r].
      match goal with
      | |- context [bind ?m ?k ?st1] =>
          assert (Hg : grows (bind m k)); [|exact (Hg st1)]
      end.
      apply grows_bind.
      { destruct b; simpl; [apply grows_ret|].
        apply grows_bind; [apply grows_logger|]. intros _.
        apply grows_bind; [apply grows_create_index|]. intros _.
        apply grows_logger. }
      intros _. apply grows_bind; [|intros; apply grows_ret].
      apply grows_handle. apply grows_bind; [apply grows_request|].
      intros _. apply grows_logger.
  - intros Hex. split.
    + unfold add_document. rewrite bind_request, Hex. cbn [negb].
      unfold bind at 1, ret at 1. unfold bind at 1.
      match goal with
      | |- context [handle_es_exceptions ?ci ?body ?st1] =>
          destruct (add_block_history depth s document st1) as [more Hm];
          destruct (handle_es_exceptions ci body st1) as [[r|e] st2];
          simpl in *; exists more; exact Hm
      end.
    + unfold bulk_add_documents. rewrite bind_request, Hex. cbn [negb].
      unfold bind at 1, ret at 1. unfold bind at 1.
      match goal with
      | |- context [handle_es_exceptions ?ci ?body ?st1] =>
          destruct (bulk_block_history depth s documents docs_per_chunk st1)
            as [more Hm];
          destruct (handle_es_exceptions ci body st1) as [[r|e] st2];
          simpl in *; exists more; exact Hm
      end.
  - intros Hex Hset. split.
    + assert (Hrun : exists st',
                add_document be (S depth) s document st
                = (Raises (IndexingError "Mapping not set"), st')
                /\ history st' = checked).
      { unfold add_document. rewrite bind_request, Hex. cbn [negb].
        unfold bind at 1.
        rewrite create_index_mapping_not_set by done. by eexists. }
      destruct Hrun as (st' & -> & Hst'). done.
    + assert (Hrun : exists st',
                bulk_add_documents be (S depth) s documents docs_per_chunk st
                = (Raises (IndexingError "Mapping not set"), st')
                /\ history st' = checked).
      { unfold bulk_add_documents. rewrite bind_request, Hex. cbn [negb].
        unfold bind at 1. rewrite bind_logger. unfold bind at 1.
        rewrite create_index_mapping_not_set by done. by eexists. }
      destruct Hrun as (st' & -> & Hst'). done.
  - intros path mappings Hex Hmap Hpath Hload Hcreate. split.
    + unfold add_document. rewrite bind_request, Hex. cbn [negb].
      unfold bind at 1.
      rewrite (create_index_accepted depth s _ path mappings) by done.
      unfold bind at 1.
      match goal with
      | |- context [handle_es_exceptions ?ci ?body ?st1] =>
          destruct (add_block_history (S depth) s document st1) as [more Hm];
          destruct (handle_es_exceptions ci body st1) as [[r|e] st2];
          unfold ret; cbn [fst snd history] in *; exists more; rewrite Hm;
          unfold checked; by rewrite <- !app_assoc
      end.
    + unfold bulk_add_documents. rewrite bind_request, Hex. cbn [negb].
      unfold bind at 1. rewrite bind_logger. unfold bind at 1.
      rewrite (create_index_accepted depth s _ path mappings) by done.
      cbv beta iota. unfold logger at 1. cbv beta iota. unfold bind at 1.
      match goal with
      | |- context [handle_es_exceptions ?ci ?body ?st1] =>
          destruct (bulk_block_history (S depth) s documents docs_per_chunk st1)
            as [more Hm];
          destruct (handle_es_exceptions ci body st1) as [[r|e] st2];
          unfold ret; cbn [fst snd history] in *; exists more; rewrite Hm;
          unfold checked; by rewrite <- !app_assoc
      end.
Qed.

End IndexFacts.

(** ** The theorems above, on the sample cluster *)

Section IndexWitnesses.
Import Py Index.

Lemma unhandled_exception_suppressed_witness :
  fst (get_document (Sample.broken_cluster (OtherException "ValueError" "Empty value"))
         3 Sample.session 7 Sample.start)
  = Raises (UnboundLocalError "record").
Proof.
  apply (@unhandled_exception_suppressed Sample.sample_collaborators
           (Sample.broken_cluster (OtherException "ValueError" "Empty value"))
           (ret tt) "ValueError" "Empty value" CHealth Sample.start 3
           Sample.session 7).
  reflexivity.
Defined.

Lemma search_pagination_guard_witness :
  let query := mkQuery 401 25 IsAdvancedQuery "muon" in
  max_pages query = (MAX_RESULTS / page_size query)%Z
  /\ ((max_pages query < page query)%Z ->
      search (Sample.cluster true) 3 Sample.session query Sample.start
      = (Raises (OutsideAllowedRange (outside_message query)),
         {| history := history Sample.start;
            log := log Sample.start
                   ++ [mkLog ERROR (outside_message query) []] |}))
  /\ ((page query <= max_pages query)%Z ->
      forall msg,
        fst (search (Sample.cluster true) 3 Sample.session query Sample.start)
        <> Raises (OutsideAllowedRange msg)).
Proof.
  intros query.
  apply (@search_pagination_guard Sample.sample_collaborators
           (Sample.cluster true) 3 Sample.session query Sample.start).
  - vm_compute. discriminate.
  - reflexivity.
  - intros cs p ps c msg. simpl. case_bool_decide; discriminate.
  - intros cs p ps c msg. simpl. discriminate.
Defined.

(** The guard at work: page 401 of 25 is refused with no request made,
    page 400 is served. *)
Example search_guard_on_sample :
  search (Sample.cluster true) 3 Sample.session
         (mkQuery 401 25 IsAdvancedQuery "muon") Sample.start
  = (Raises (OutsideAllowedRange "Requested page 401, but max is 400"),
     {| history := [];
        log := [mkLog ERROR "Requested page 401, but max is 400" []] |})
  /\ fst (search (Sample.cluster true) 3 Sample.session
            (mkQuery 400 25 IsAdvancedQuery "muon") Sample.start)
     = Returns (0%Z, []).
Proof. split; reflexivity. Qed.

Lemma transport_fault_translation_witness :
  fst (on_exception (A:=unit) (ret tt)
         (External (TransportError "connection_timeout" "timed out"))
         Sample.start)
  = Raises (IndexConnectionError
              "Problem communicating with ES: connection_timeout").
Proof.
  destruct (@transport_fault_translation Sample.sample_collaborators
              (Sample.cluster true) unit (ret tt) "connection_timeout"
              "timed out" Sample.start 3 Sample.session 42)
    as (_ & _ & _ & _ & _ & Hother & _).
  apply Hother. unfold singled_out_errors. intros Hin.
  repeat (apply elem_of_cons in Hin as [Hin|Hin]; [discriminate|]).
  by apply elem_of_nil in Hin.
Defined.

(** C6, the claim as stated fails: a transport fault whose error is
    [resource_already_exists_exception] is suppressed, and one whose error
    is [mapper_parsing_exception] is raised as [MappingError]; neither
    becomes [IndexConnectionError]. *)
Lemma transport_faults_not_all_connection_errors :
  fst (on_exception (A:=unit) (ret tt)
         (External (TransportError "resource_already_exists_exception" "arxiv"))
         Sample.start)
  = Returns None
  /\ fst (on_exception (A:=unit) (ret tt)
            (External (TransportError "mapper_parsing_exception" "bad field"))
            Sample.start)
     = Raises (MappingError "Invalid mapping: bad field").
Proof. split; reflexivity. Qed.

Lemma search_unknown_query_kind_witness :
  let query := mkQuery 1 25 IsOtherQuery "anything" in
  let sliced := Search_slice (prepare_highlight (Search_new "arxiv")) 0 25 in
  prepare_query (Search_new "arxiv") query = Returns (Search_new "arxiv")
  /\ slice (prepare_highlight (Search_new "arxiv")) 0 25 = Returns sliced
  /\ (exists more,
        history (snd (search (Sample.cluster true) 3 Sample.session query
                        Sample.start))
        = [] ++ CExecute sliced :: more
        /\ forallb is_create more = true)
  /\ (forall resp,
        execute (Sample.cluster true) [] sliced = Returns resp ->
        search (Sample.cluster true) 3 Sample.session query Sample.start
        = (Returns resp,
           {| history := [] ++ [CExecute sliced];
              log := [] ++ [mkLog DEBUG "got current_search request %s"
                              [PyStr "anything"]] |})).
Proof.
  intros query sliced.
  apply (@search_unknown_query_kind Sample.sample_collaborators
           (Sample.cluster true) 3 Sample.session query Sample.start).
  - reflexivity.
  - reflexivity.
  - vm_compute. discriminate.
  - vm_compute. discriminate.
Defined.

(** Page 0 passes the guard, but its window is refused by the slice
    inside the guarded block: no request is made. *)
Example search_page_zero :
  let query := mkQuery 0 25 IsOtherQuery "anything" in
  fst (search (Sample.cluster true) 3 Sample.session query Sample.start)
  = Raises (UnboundLocalError "resp")
  /\ history (snd (search (Sample.cluster true) 3 Sample.session query
                     Sample.start)) = [].
Proof. split; reflexivity. Qed.

Lemma cluster_available_outcomes_witness :
  let fault := TransportError "bad_request" "plain text body" in
  cluster_available (H0:=Sample.sample_client) (Sample.broken_cluster fault)
                    Sample.start
  = (Raises (TypeError "string indices must be integers"),
     {| history := [CHealth]; log := [] |})
  /\ cluster_available (H0:=Sample.sample_client)
       (Sample.broken_cluster (HTTPError "connection refused")) Sample.start
     = (Returns false,
        {| history := [CHealth];
           log := [mkLog DEBUG "Health check failed: %s"
                     [PyStr "connection refused"]] |}).
Proof.
  intros fault. split.
  - exact (@cluster_available_outcomes Sample.sample_collaborators
             Sample.sample_client (Sample.broken_cluster fault) Sample.start).
  - exact (@cluster_available_outcomes Sample.sample_collaborators
             Sample.sample_client
             (Sample.broken_cluster (HTTPError "connection refused"))
             Sample.start).
Defined.

Lemma index_checked_before_indexing_witness :
  (exists more,
     history (snd (add_document (Sample.cluster false) 3 Sample.session
                     Sample.sample_document Sample.start))
     = [CExists "arxiv"]
       ++ CCreate "arxiv" "{mappings}"
          :: CIndex "arxiv" (ident_of Sample.sample_document)
                    Sample.sample_document :: more)
  /\ (fst (add_document (Sample.cluster false) 3 Sample.session_without_mapping
             Sample.sample_document Sample.start)
      = Raises (IndexingError "Mapping not set")
      /\ history (snd (add_document (Sample.cluster false) 3
                         Sample.session_without_mapping
                         Sample.sample_document Sample.start))
         = [CExists "arxiv"])
  /\ (exists more,
        history (snd (add_document (Sample.cluster true) 3 Sample.session
                        Sample.sample_document Sample.start))
        = [CExists "arxiv"]
          ++ CIndex "arxiv" (ident_of Sample.sample_document)
                    Sample.sample_document :: more).
Proof.
  split; [|split].
  - destruct (@index_checked_before_indexing Sample.sample_collaborators
                (Sample.cluster false) 2 Sample.session Sample.sample_document
                [Sample.sample_document] 500 Sample.start)
      as (_ & _ & _ & Hcreated).
    apply (Hcreated "mappings/DocumentMapping.json" "{mappings}");
      [reflexivity|reflexivity|discriminate|reflexivity|reflexivity].
  - destruct (@index_checked_before_indexing Sample.sample_collaborators
                (Sample.cluster false) 2 Sample.session_without_mapping
                Sample.sample_document [Sample.sample_document] 500 Sample.start)
      as (_ & _ & Hunset & _).
    apply Hunset; reflexivity.
  - destruct (@index_checked_before_indexing Sample.sample_collaborators
                (Sample.cluster true) 3 Sample.session Sample.sample_document
                [Sample.sample_document] 500 Sample.start)
      as (_ & Hpresent & _).
    apply Hpresent. reflexivity.
Defined.

(** C10, the claim as stated fails: with no mapping configured, indexing
    succeeds on a cluster that has the index and fails, with
    [IndexingError('Mapping not set')] and no indexing request, on the
    same cluster without the index. *)
Lemma indexing_fails_for_absent_index :
  fst (add_document (Sample.cluster true) 3 Sample.session_without_mapping
         Sample.sample_document Sample.start)
  = Returns tt
  /\ fst (add_document (Sample.cluster false) 3 Sample.session_without_mapping
            Sample.sample_document Sample.start)
     = Raises (IndexingError "Mapping not set")
  /\ history (snd (add_document (Sample.cluster false) 3
                     Sample.session_without_mapping
                     Sample.sample_document Sample.start))
     = [CExists "arxiv"]
  /\ fst (bulk_add_documents (Sample.cluster true) 3
            Sample.session_without_mapping [Sample.sample_document] 500
            Sample.start)
     = Returns tt
  /\ fst (bulk_add_documents (Sample.cluster false) 3
            Sample.session_without_mapping [Sample.sample_document] 500
            Sample.start)
     = Raises (IndexingError "Mapping not set").
Proof. repeat split. Qed.

End IndexWitnesses.

(** ** More on the index service: [search], [create_index],
       [add_document], [bulk_add_documents] *)

Section IndexMore.
Import Py Index IndexRequests.
Local Open Scope service_scope.
Context `{Collaborators}.
Variable be : Backend.

Ltac run := unfold bind, ret, raise, logger, lift, request; simpl.

(** [search], once the guard let the query through. *)
Lemma search_past_guard (depth : nat) (s : SearchSession) (query : Query)
    (st : State) :
  page_size query <> 0%Z ->
  (page query <= max_pages query)%Z ->
  search be depth s query st
  = (current_search <- lift (prepare_query (Search_new (index s)) query) ;;
     resp <- handle_es_exceptions (current_create_index be depth)
               (sliced <- lift (slice (prepare_highlight current_search)
                                      (page_start query) (page_end query)) ;;
                request (CExecute sliced) (fun h => execute be h sliced)) ;;
     match resp with
     | None => raise (UnboundLocalError "resp")
     | Some resp =>
         ret (results_to_documentset (page query) (page_size query)
                                     (content query) resp)
     end)
      {| history := history st;
         log := log st
                ++ [mkLog DEBUG "got current_search request %s"
                      [PyStr (Query_str (page query) (page_size query)
                                        (content query))]] |}.
Proof.
  intros Hsize Hwithin. unfold search.
  rewrite (proj2 (Z.eqb_neq _ _) Hsize).
  assert (Hgt : (page query >? max_pages query)%Z = false).
  { rewrite Z.gtb_ltb. apply Z.ltb_ge. lia. }
  rewrite Hgt. reflexivity.
Qed.

(** X1: when the preparation of an advanced or simple query raises,
    [search] raises before any request is made: a [TypeError] comes out as
    [QueryError('Malformed query')], any other exception as it is. *)
Theorem search_preparation_failure
    (depth : nat) (s : SearchSession) (query : Query) (st : State) (e : exn) :
  page_size query <> 0%Z ->
  (page query <= max_pages query)%Z ->
  match kind query with
  | IsAdvancedQuery =>
      prepare_advanced (Search_new (index s)) (page query) (page_size query)
                       (content query) = Raises e
  | IsSimpleQuery =>
      prepare_simple (Search_new (index s)) (page query) (page_size query)
                     (content query) = Raises e
  | IsOtherQuery => False
  end ->
  fst (search be depth s query st)
  = Raises (match e with
            | TypeError _ => QueryError "Malformed query"
            | _ => e
            end)
  /\ history (snd (search be depth s query st)) = history st.
Proof.
  intros Hsize Hwithin Hprep. rewrite search_past_guard by done.
  assert (Hq : prepare_query (Search_new (index s)) query
               = Raises (match e with
                         | TypeError _ => QueryError "Malformed query"
                         | _ => e
                         end)).
  { unfold prepare_query. destruct (kind query); [| |done]; rewrite Hprep;
      by destruct e. }
  unfold bind at 1, lift. rewrite Hq. done.
Qed.

(** X2: a page size that is not positive never reaches the backend: zero
    raises [ZeroDivisionError] at once, nothing logged; a negative one,
    with [MAX_RESULTS] non-negative, makes every page from 1 on raise
    [OutsideAllowedRange]. *)
Theorem search_page_size_not_positive
    (depth : nat) (s : SearchSession) (query : Query) (st : State) :
  (page_size query = 0%Z ->
   search be depth s query st = (Raises ZeroDivisionError, st))
  /\ ((page_size query < 0)%Z -> (0 <= MAX_RESULTS)%Z -> (1 <= page query)%Z ->
      fst (search be depth s query st)
      = Raises (OutsideAllowedRange (outside_message query))
      /\ history (snd (search be depth s query st)) = history st).
Proof.
  split.
  - intros Hz. unfold search. rewrite Hz. reflexivity.
  - intros Hneg Hmax Hpage. unfold search.
    rewrite (proj2 (Z.eqb_neq _ _)) by lia.
    assert (Hq : (max_pages query <= 0)%Z).
    { unfold max_pages.
      replace (page_size query) with (- (- page_size query))%Z by lia.
      rewrite Z.quot_opp_r by lia.
      assert (0 <= MAX_RESULTS ÷ - page_size query)%Z
        by (apply Z.quot_pos; lia).
      lia. }
    assert (Hgt : (page query >? max_pages query)%Z = true)
      by (apply Z.gtb_lt; lia).
    rewrite Hgt. done.
Qed.

(** [search], once the guard let the query through, the preparation
    returned [current_search] and the slice to the page was accepted. *)
Lemma search_prepared (depth : nat) (s : SearchSession) (query : Query)
    (st : State) (current_search : Search) :
  (0 < page_size query)%Z ->
  (1 <= page query)%Z ->
  (page query <= max_pages query)%Z ->
  prepare_query (Search_new (index s)) query = Returns current_search ->
  let sliced := Search_slice (prepare_highlight current_search)
                             (page_start query) (page_end query) in
  let requested :=
    {| history := history st ++ [CExecute sliced];
       log := log st
              ++ [mkLog DEBUG "got current_search request %s"
                    [PyStr (Query_str (page query) (page_size query)
                                      (content query))]] |} in
  search be depth s query st
  = match execute be (history st) sliced with
    | Returns resp =>
        (Returns (results_to_documentset (page query) (page_size query)
                                         (content query) resp), requested)
    | Raises e =>
        match on_exception (current_create_index be depth) (External e)
                           requested with
        | (Returns (Some resp), st') =>
            (Returns (results_to_documentset (page query) (page_size query)
                                             (content query) resp), st')
        | (Returns None, st') => (Raises (UnboundLocalError "resp"), st')
        | (Raises e', st') => (Raises e', st')
        end
    end.
Proof.
  intros Hsize Hpage Hwithin Hprep sliced requested.
  rewrite search_past_guard by (done || lia).
  unfold bind at 1, lift at 1. rewrite Hprep. cbv beta iota.
  unfold bind at 1, handle_es_exceptions.
  unfold bind at 1, lift at 1.
  rewrite slice_of_page by done.
  cbv beta iota. unfold request. cbn [history log].
  fold sliced. fold requested.
  destruct (execute be (history st) sliced) as [resp|e];
    unfold lift_ext; cbv beta iota; [done|].
  by destruct (on_exception (A:=Response) (current_create_index be depth)
                 (External e) requested) as [[[r|]|e'] st'].
Qed.

(** X3: how a fault of the search request reaches the caller of [search]
    (the page from 1 on and of positive size, the guard passed, the
    preparation returned): a not-found fault as [DocumentNotFound], a
    [parsing_exception] as [QueryError] with the backend's info, a
    serialization fault as [IndexingError], a transport fault that the
    handler does not single out as [IndexConnectionError]; an answer is
    transformed and returned.  In each case the search request is the only
    request made. *)
Theorem search_backend_outcomes
    (depth : nat) (s : SearchSession) (query : Query) (st : State)
    (current_search : Search) :
  (0 < page_size query)%Z ->
  (1 <= page query)%Z ->
  (page query <= max_pages query)%Z ->
  prepare_query (Search_new (index s)) query = Returns current_search ->
  let sliced := Search_slice (prepare_highlight current_search)
                             (page_start query) (page_end query) in
  let out := search be depth s query st in
  let one_request := history (snd out) = history st ++ [CExecute sliced] in
  (forall resp,
     execute be (history st) sliced = Returns resp ->
     fst out = Returns (results_to_documentset (page query) (page_size query)
                                               (content query) resp)
     /\ one_request)
  /\ (forall error info,
        execute be (history st) sliced = Raises (NotFoundError error info) ->
        fst out = Raises (DocumentNotFound "No such document") /\ one_request)
  /\ (forall info,
        execute be (history st) sliced
        = Raises (TransportError "parsing_exception" info) ->
        fst out = Raises (QueryError info) /\ one_request)
  /\ (forall msg,
        execute be (history st) sliced = Raises (SerializationError msg) ->
        fst out = Raises (IndexingError ("Problem serializing document: " +:+ msg))
        /\ one_request)
  /\ (forall error info,
        error ∉ singled_out_errors ->
        execute be (history st) sliced = Raises (TransportError error info) ->
        fst out = Raises (IndexConnectionError
                            ("Problem communicating with ES: " +:+ error))
        /\ one_request).
Proof.
  intros Hsize Hpage Hwithin Hprep sliced out one_request.
  unfold one_request, out.
  rewrite (search_prepared depth s query st current_search) by done.
  fold sliced.
  split; [|split; [|split; [|split]]].
  - intros resp Hex. rewrite Hex. done.
  - intros error info Hex. rewrite Hex. done.
  - intros info Hex. rewrite Hex. done.
  - intros msg Hex. rewrite Hex. done.
  - intros error info Hother Hex. rewrite Hex. simpl. run.
    unfold singled_out_errors in Hother.
    repeat (case_bool_decide; [subst; exfalso; apply Hother; set_solver|]).
    done.
Qed.

(** [create_index], once the mapping is loaded. *)
Lemma create_index_requested (depth : nat) (s : SearchSession) (st : State)
    (path : string) (mappings : Mappings) :
  mapping s = Some path ->
  path <> EmptyString ->
  load_mapping be path = Returns mappings ->
  let requested :=
    {| history := history st ++ [CCreate (index s) mappings];
       log := log st
              ++ [mkLog DEBUG ("create ES index " +:+ dq +:+ "%s" +:+ dq)
                    [PyStr (index s)]] |} in
  create_index be (S depth) s st
  = match indices_create be (history st) (index s) mappings with
    | Returns _ => (Returns tt, requested)
    | Raises e =>
        match on_exception (A:=unit) (current_create_index be depth)
                           (External e) requested with
        | (Returns _, st') => (Returns tt, st')
        | (Raises e', st') => (Raises e', st')
        end
    end.
Proof.
  intros Hmap Hpath Hload requested. cbn [create_index].
  fold (current_create_index be depth).
  rewrite bind_logger, Hmap. rewrite bool_decide_eq_false_2 by done.
  cbn [negb]. unfold bind at 1, handle_es_exceptions.
  unfold bind at 1, lift. rewrite Hload. unfold lift_ext at 1.
  cbv beta iota. unfold request. cbn [history log]. fold requested.
  destruct (indices_create be (history st) (index s) mappings) as [[]|e];
    unfold lift_ext; cbv beta iota; [done|].
  by destruct (on_exception (A:=unit) (current_create_index be depth)
                 (External e) requested) as [[r|e'] st'].
Qed.

(** X4: creating an index that exists already is not an error: when the
    backend answers the create request with
    [resource_already_exists_exception], [create_index] returns normally,
    having made that one request and logged the fault. *)
Theorem create_index_existing_index
    (depth : nat) (s : SearchSession) (st : State)
    (path : string) (mappings : Mappings) (info : string) :
  mapping s = Some path ->
  path <> EmptyString ->
  load_mapping be path = Returns mappings ->
  indices_create be (history st) (index s) mappings
  = Raises (TransportError "resource_already_exists_exception" info) ->
  create_index be (S depth) s st
  = (Returns tt,
     {| history := history st ++ [CCreate (index s) mappings];
        log := log st
               ++ [mkLog DEBUG ("create ES index " +:+ dq +:+ "%s" +:+ dq)
                     [PyStr (index s)];
                   mkLog ERROR "resource_already_exists_exception" [];
                   mkLog DEBUG "Index already exists; move along" []] |}).
Proof.
  intros Hmap Hpath Hload Hcreate.
  rewrite (create_index_requested depth s st path mappings) by done.
  rewrite Hcreate. simpl. run. by rewrite <- !app_assoc.
Qed.

(** X5: the faults of the create request, as [create_index] raises them:
    [mapper_parsing_exception] as [MappingError] with the backend's info,
    a serialization fault as [IndexingError], a transport fault that the
    handler does not single out as [IndexConnectionError]; the create
    request is the only request made. *)
Theorem create_index_faults
    (depth : nat) (s : SearchSession) (st : State)
    (path : string) (mappings : Mappings) :
  mapping s = Some path ->
  path <> EmptyString ->
  load_mapping be path = Returns mappings ->
  let out := create_index be (S depth) s st in
  let one_request :=
    history (snd out) = history st ++ [CCreate (index s) mappings] in
  (forall info,
     indices_create be (history st) (index s) mappings
     = Raises (TransportError "mapper_parsing_exception" info) ->
     fst out = Raises (MappingError ("Invalid mapping: " +:+ info))
     /\ one_request)
  /\ (forall msg,
        indices_create be (history st) (index s) mappings
        = Raises (SerializationError msg) ->
        fst out = Raises (IndexingError ("Problem serializing document: " +:+ msg))
        /\ one_request)
  /\ (forall error info,
        error ∉ singled_out_errors ->
        indices_create be (history st) (index s) mappings
        = Raises (TransportError error info) ->
        fst out = Raises (IndexConnectionError
                            ("Problem communicating with ES: " +:+ error))
        /\ one_request).
Proof.
  intros Hmap Hpath Hload out one_request. unfold one_request, out.
  rewrite (create_index_requested depth s st path mappings) by done.
  split; [|split].
  - intros info Hcreate. rewrite Hcreate. done.
  - intros msg Hcreate. rewrite Hcreate. done.
  - intros error info Hother Hcreate. rewrite Hcreate. simpl. run.
    unfold singled_out_errors in Hother.
    repeat (case_bool_decide; [subst; exfalso; apply Hother; set_solver|]).
    done.
Qed.

(** *** The requests of [create_index] *)

Lemma on_exception_requests (P : Call -> bool) (A : Type)
    (create_index' : M unit) (e : exn) (st : State) :
  (forall st', exists more,
      history (snd (create_index' st')) = history st' ++ more
      /\ forallb P more = true) ->
  exists more,
    history (snd (on_exception (A:=A) create_index' e st)) = history st ++ more
    /\ forallb P more = true.
Proof.
  intros Hci.
  assert (Hnil : exists more, history st = history st ++ more
                              /\ forallb P more = true).
  { exists []. by rewrite app_nil_r. }
  destruct e as [[error info|error info|m|m|m|n m]| | | | | | | | | | | |];
    simpl; run; try exact Hnil.
  repeat (case_bool_decide; simpl; try exact Hnil).
  match goal with
  | |- context [create_index' ?st0] =>
      destruct (Hci st0) as (more & Hm & Hc);
      destruct (create_index' st0) as [[u|e'] st1]; simpl in *;
      exists more; by rewrite Hm
  end.
Qed.

(** X6: whatever the backend does and however deep the handler recurses,
    the only requests [create_index] makes are create requests, each for
    the session's own index or, when the handler re-enters through the
    module-level [create_index], for the index of the current session of
    the context; with no mapping configured it makes none. *)
Theorem create_index_only_creates
    (depth : nat) (s : SearchSession) (st : State) :
  exists more,
    history (snd (create_index be depth s st)) = history st ++ more
    /\ forallb (creates_own_or_current be s) more = true
    /\ (mapping_set s = false -> more = []).
Proof.
  assert (Hgen : forall depth s st, exists more,
             history (snd (create_index be depth s st)) = history st ++ more
             /\ forallb (creates_own_or_current be s) more = true).
  { clear depth s st. induction depth as [|depth IH]; intros s st.
    - exists []. simpl. by rewrite app_nil_r.
    - assert (Hci : forall st', exists more,
                history (snd (current_create_index be depth st'))
                = history st' ++ more
                /\ forallb (creates_own_or_current be s) more = true).
      { intros st'. unfold current_create_index, bind, current_session.
        destruct (fst (app_session be)) as [current|fault] eqn:Hcur;
          cbn [fst snd history].
        - match goal with
          | |- context [create_index be depth current ?st0] =>
              destruct (IH current st0) as (more & Hm & Hc)
          end.
          exists more. split; [exact Hm|].
          rewrite forallb_forall in Hc. apply forallb_forall. intros c Hin.
          specialize (Hc c Hin). unfold creates_own_or_current in *.
          rewrite Hcur in *. destruct (creates_index (index current) c);
            [by rewrite orb_true_r|done].
        - exists []. by rewrite app_nil_r. }
      assert (Hown : forall mappings,
                creates_own_or_current be s (CCreate (index s) mappings) = true).
      { intros mappings. unfold creates_own_or_current. simpl.
        by rewrite bool_decide_eq_true_2. }
      cbn [create_index]. fold (current_create_index be depth).
      rewrite bind_logger.
      destruct (mapping s) as [path|];
        [|exists []; simpl; by rewrite app_nil_r].
      case_bool_decide; cbn [negb]; [exists []; simpl; by rewrite app_nil_r|].
      unfold bind at 1, handle_es_exceptions.
      unfold bind at 1, lift.
      destruct (load_mapping be path) as [mappings|e];
        unfold lift_ext at 1; cbv beta iota.
      + unfold request. cbn [history log].
        destruct (indices_create be (history st) (index s) mappings) as [[]|e];
          unfold lift_ext; cbv beta iota.
        * exists [CCreate (index s) mappings]. cbn [fst snd history forallb].
          by rewrite Hown.
        * match goal with
          | |- context [on_exception ?ci ?e0 ?st0] =>
              destruct (on_exception_requests (creates_own_or_current be s)
                          unit ci e0 st0 Hci) as (more & Hm & Hc);
              destruct (on_exception (A:=unit) ci e0 st0) as [[r|e'] st'];
              unfold ret; cbn [fst snd history] in *;
              exists (CCreate (index s) mappings :: more);
              rewrite Hm, <- app_assoc; (split; [done|]);
              cbn [forallb]; by rewrite Hown
          end.
      + match goal with
        | |- context [on_exception ?ci ?e0 ?st0] =>
            destruct (on_exception_requests (creates_own_or_current be s)
                        unit ci e0 st0 Hci) as (more & Hm & Hc);
            destruct (on_exception (A:=unit) ci e0 st0) as [[r|e'] st'];
            unfold ret; cbn [fst snd history] in *; exists more; by rewrite Hm
        end. }
  destruct (mapping_set s) eqn:Hset.
  - destruct (Hgen depth s st) as (more & Hm & Hc). exists more. done.
  - exists []. rewrite app_nil_r. split; [|done].
    destruct depth as [|depth]; [done|].
    by rewrite create_index_mapping_not_set.
Qed.

(** X7: the existence check is made outside the handler: when it raises,
    [add_document] and [bulk_add_documents] let the client's exception
    through untranslated, and make no further request. *)
Theorem existence_check_fault_untranslated
    (depth : nat) (s : SearchSession) (document : Document)
    (documents : list Document) (docs_per_chunk : Z) (st : State)
    (e : ext_exn) :
  indices_exists be (history st) (index s) = Raises e ->
  let checked := {| history := history st ++ [CExists (index s)];
                    log := log st |} in
  add_document be depth s document st = (Raises (External e), checked)
  /\ bulk_add_documents be depth s documents docs_per_chunk st
     = (Raises (External e), checked).
Proof.
  intros Hex checked. split.
  - unfold add_document. by rewrite bind_request, Hex.
  - unfold bulk_add_documents. by rewrite bind_request, Hex.
Qed.

(** [add_document] and [bulk_add_documents] on an index that exists. *)
Lemma add_document_present (depth : nat) (s : SearchSession)
    (document : Document) (st : State) :
  indices_exists be (history st) (index s) = Returns true ->
  let ident := ident_of document in
  let requested :=
    {| history := (history st ++ [CExists (index s)])
                  ++ [CIndex (index s) ident document];
       log := log st ++ [mkLog DEBUG "{ident}: index document" [ident]] |} in
  add_document be depth s document st
  = match es_index be (history st ++ [CExists (index s)]) (index s) ident
                   document with
    | Returns _ => (Returns tt, requested)
    | Raises e =>
        match on_exception (A:=unit) (current_create_index be depth)
                           (External e) requested with
        | (Returns _, st') => (Returns tt, st')
        | (Raises e', st') => (Raises e', st')
        end
    end.
Proof.
  intros Hex ident requested. unfold add_document.
  rewrite bind_request, Hex. cbn [negb]. unfold bind at 1, ret at 1.
  unfold bind at 1, handle_es_exceptions. rewrite bind_logger.
  unfold request. cbn [history log]. fold ident. fold requested.
  destruct (es_index be _ (index s) ident document) as [[]|e];
    unfold lift_ext; cbv beta iota; [done|].
  by destruct (on_exception (A:=unit) (current_create_index be depth)
                 (External e) requested) as [[r|e'] st'].
Qed.

Lemma bulk_add_documents_present (depth : nat) (s : SearchSession)
    (documents : list Document) (docs_per_chunk : Z) (st : State) :
  indices_exists be (history st) (index s) = Returns true ->
  let actions := bulk_actions s documents in
  let requested :=
    {| history := (history st ++ [CExists (index s)])
                  ++ [CBulk actions docs_per_chunk];
       log := log st |} in
  bulk_add_documents be depth s documents docs_per_chunk st
  = match helpers_bulk be (history st ++ [CExists (index s)]) actions
                       docs_per_chunk with
    | Returns _ =>
        (Returns tt,
         {| history := history requested;
            log := log st ++ [mkLog DEBUG "added %i documents to index"
                                [PyInt (Z.of_nat (length documents))]] |})
    | Raises e =>
        match on_exception (A:=unit) (current_create_index be depth)
                           (External e) requested with
        | (Returns _, st') => (Returns tt, st')
        | (Raises e', st') => (Raises e', st')
        end
    end.
Proof.
  intros Hex actions requested. unfold bulk_add_documents.
  rewrite bind_request, Hex. cbn [negb]. unfold bind at 1, ret at 1.
  unfold bind at 1, handle_es_exceptions. fold actions.
  rewrite bind_request. cbn [history log]. fold requested.
  destruct (helpers_bulk be _ actions docs_per_chunk) as [[]|e];
    [done|].
  by destruct (on_exception (A:=unit) (current_create_index be depth)
                 (External e) requested) as [[r|e'] st'].
Qed.

(** X8: on an index that exists, a serialization fault of the indexing
    request and a bulk fault of the bulk helper both come out as
    [IndexingError], each with its own message; the check and the
    indexing request are the only requests made. *)
Theorem indexing_faults
    (depth : nat) (s : SearchSession) (document : Document)
    (documents : list Document) (docs_per_chunk : Z) (st : State)
    (msg : string) :
  indices_exists be (history st) (index s) = Returns true ->
  let checked := history st ++ [CExists (index s)] in
  (es_index be checked (index s) (ident_of document) document
   = Raises (SerializationError msg) ->
   fst (add_document be depth s document st)
   = Raises (IndexingError ("Problem serializing document: " +:+ msg))
   /\ history (snd (add_document be depth s document st))
      = checked ++ [CIndex (index s) (ident_of document) document])
  /\ (helpers_bulk be checked (bulk_actions s documents) docs_per_chunk
      = Raises (BulkIndexError msg) ->
      fst (bulk_add_documents be depth s documents docs_per_chunk st)
      = Raises (IndexingError ("Problem with bulk indexing: " +:+ msg))
      /\ history (snd (bulk_add_documents be depth s documents docs_per_chunk st))
         = checked ++ [CBulk (bulk_actions s documents) docs_per_chunk]).
Proof.
  intros Hex checked. split.
  - intros Hfault. rewrite add_document_present by done.
    fold checked. rewrite Hfault. done.
  - intros Hfault. rewrite bulk_add_documents_present by done.
    fold checked. rewrite Hfault. done.
Qed.

(** X9: when the indexing request fails with a transport fault whose
    error is [index_not_found_exception] and which is not a
    [NotFoundError], the handler calls the module-level [create_index],
    which creates the index of the current session of the context (with
    that session's mapping), whichever session [add_document] runs on;
    [add_document] then still raises [IndexConnectionError]: the indexing
    request is not made again, the document is not indexed.  When the
    context yields no current session, that failure is what
    [add_document] raises, and nothing is created.  When the client
    reports the missing index as a [NotFoundError], the first clause of
    the handler takes it: [add_document] raises [DocumentNotFound] and
    nothing is created. *)
Theorem add_document_index_gone
    (depth : nat) (s : SearchSession) (document : Document) (st : State)
    (info : string) :
  indices_exists be (history st) (index s) = Returns true ->
  let index_request := CIndex (index s) (ident_of document) document in
  let checked := history st ++ [CExists (index s)] in
  let out := add_document be (S depth) s document st in
  (es_index be checked (index s) (ident_of document) document
   = Raises (TransportError "index_not_found_exception" info) ->
   (forall current records path mappings,
      app_session be = (Returns current, records) ->
      mapping current = Some path ->
      path <> EmptyString ->
      load_mapping be path = Returns mappings ->
      indices_create be (checked ++ [index_request]) (index current) mappings
      = Returns tt ->
      fst out
      = Raises (IndexConnectionError
                  "Problem communicating with ES: index_not_found_exception")
      /\ history (snd out)
         = checked ++ [index_request; CCreate (index current) mappings])
   /\ (forall fault records,
         app_session be = (Raises fault, records) ->
         fst out = Raises (session_fault fault)
         /\ history (snd out) = checked ++ [index_request]))
  /\ (es_index be checked (index s) (ident_of document) document
      = Raises (NotFoundError "index_not_found_exception" info) ->
      fst out = Raises (DocumentNotFound "No such document")
      /\ history (snd out) = checked ++ [index_request]).
Proof.
  intros Hex index_request checked out. unfold out. split.
  - intros Hgone.
    assert (Hrun : add_document be (S depth) s document st
                   = let logged :=
                       {| history := checked ++ [index_request];
                          log := (log st
                                  ++ [mkLog DEBUG "{ident}: index document"
                                        [ident_of document]])
                                 ++ [mkLog ERROR "index_not_found_exception" []] |} in
                     match (current_create_index be (S depth) ;;;
                            logger ERROR
                              ("Problem communicating with ES: "
                               +:+ "index_not_found_exception") [] ;;;
                            raise (A:=option unit)
                              (IndexConnectionError
                                 ("Problem communicating with ES: "
                                  +:+ "index_not_found_exception"))) logged with
                     | (Returns _, st') => (Returns tt, st')
                     | (Raises e', st') => (Raises e', st')
                     end).
    { rewrite add_document_present by done. fold checked. rewrite Hgone.
      unfold on_exception. rewrite bind_logger.
      rewrite !bool_decide_eq_false_2 by discriminate.
      rewrite bool_decide_eq_true_2 by done. reflexivity. }
    split.
    + intros current records path mappings Happ Hmap Hpath Hload Hcreate.
      assert (Hfinal : exists st',
                add_document be (S depth) s document st
                = (Raises (IndexConnectionError
                             "Problem communicating with ES: index_not_found_exception"),
                   st')
                /\ history st'
                   = checked ++ [index_request; CCreate (index current) mappings]).
      { rewrite Hrun. cbv zeta.
        unfold bind at 1, current_create_index, bind at 1, current_session.
        rewrite Happ. cbn [fst snd history log].
        rewrite (create_index_accepted be depth current _ path mappings) by done.
        cbn. eexists. split; [reflexivity|]. cbn.
        by rewrite <- !app_assoc. }
      destruct Hfinal as (st' & -> & Hst'). done.
    + intros fault records Happ. rewrite Hrun. cbv zeta.
      unfold bind at 1, current_create_index, bind at 1, current_session.
      rewrite Happ. done.
  - intros Hnotfound. rewrite add_document_present by done.
    fold checked. rewrite Hnotfound. done.
Qed.

(** X10: on an index that exists, [bulk_add_documents] hands the documents
    to the bulk helper in one call, whatever their number, right after the
    existence check: one action per document, in the order of the
    documents, each for the session's index and the type ['document'],
    carrying the document as its source and, as its id, the document's
    [id] when that is truthy and its [paper_id] otherwise.  Whatever the
    helper answers, the only requests that follow are requests to create
    an index. *)
Theorem bulk_actions_follow_documents
    (depth : nat) (s : SearchSession) (documents : list Document)
    (docs_per_chunk : Z) (st : State) :
  indices_exists be (history st) (index s) = Returns true ->
  exists actions more,
    history (snd (bulk_add_documents be depth s documents docs_per_chunk st))
    = history st ++ CExists (index s) :: CBulk actions docs_per_chunk :: more
    /\ forallb is_create more = true
    /\ map _source actions = documents
    /\ map _id actions
       = map (fun document =>
                if truthy (attr document "id") then attr document "id"
                else attr document "paper_id") documents
    /\ Forall (fun action => _index action = index s
                             /\ _type action = "document") actions.
Proof.
  intros Hex. exists (bulk_actions s documents).
  assert (Hactions :
            map _source (bulk_actions s documents) = documents
            /\ map _id (bulk_actions s documents)
               = map (fun document =>
                        if truthy (attr document "id") then attr document "id"
                        else attr document "paper_id") documents
            /\ Forall (fun action => _index action = index s
                                     /\ _type action = "document")
                      (bulk_actions s documents)).
  { unfold bulk_actions. split; [|split].
    - rewrite map_map. simpl. apply map_id.
    - rewrite map_map. reflexivity.
    - induction documents as [|document rest IH]; simpl; constructor; done. }
  rewrite bulk_add_documents_present by done.
  destruct (helpers_bulk be _ _ docs_per_chunk) as [[]|e].
  - exists []. cbn [fst snd history]. rewrite <- app_assoc. done.
  - match goal with
    | |- context [on_exception ?ci ?e0 ?st0] =>
        destruct (on_exception_history unit ci e0 st0
                    (current_create_index_history be depth))
          as (more & Hm & Hc);
        destruct (on_exception (A:=unit) ci e0 st0) as [[r|e'] st'];
        cbn [fst snd history] in *
    end.
    + exists more. rewrite Hm, <- !app_assoc. done.
    + exists more. rewrite Hm, <- !app_assoc. done.
Qed.

(** *** The log only grows *)

Lemma on_exception_log (A : Type) (create_index' : M unit) (e : exn)
    (st : State) :
  (forall st', exists more, log (snd (create_index' st')) = log st' ++ more) ->
  exists more,
    log (snd (on_exception (A:=A) create_index' e st)) = log st ++ more.
Proof.
  intros Hci.
  destruct e as [[error info|error info|m|m|m|n m]| | | | | | | | | | | |];
    simpl; run;
    try (eexists; rewrite <- ?app_assoc; reflexivity);
    try (exists []; by rewrite app_nil_r).
  repeat (case_bool_decide; simpl;
          try (eexists; rewrite <- ?app_assoc; reflexivity)).
  match goal with
  | |- context [create_index' ?st0] =>
      destruct (Hci st0) as (more & Hm);
      destruct (create_index' st0) as [[u|e'] st1]; simpl in *;
      rewrite Hm; eexists; rewrite <- ?app_assoc; reflexivity
  end.
Qed.

Lemma on_current_log (method : SearchSession -> M unit) :
  (forall s st, exists more, log (snd (method s st)) = log st ++ more) ->
  forall st, exists more,
    log (snd ((session <- current_session be ;; method session) st))
    = log st ++ more.
Proof.
  intros Hmethod st. unfold bind, current_session.
  destruct (fst (app_session be)) as [session|fault]; cbn [fst snd log].
  - match goal with
    | |- context [method session ?st0] =>
        destruct (Hmethod session st0) as (more & Hm)
    end.
    rewrite Hm. cbn [log]. eexists. by rewrite <- app_assoc.
  - by eexists.
Qed.

Lemma create_index_log (depth : nat) (s : SearchSession) (st : State) :
  exists more, log (snd (create_index be depth s st)) = log st ++ more.
Proof.
  revert s st. induction depth as [|depth IH]; intros s st.
  - exists []. simpl. by rewrite app_nil_r.
  - cbn [create_index]. rewrite bind_logger.
    destruct (mapping s) as [path|]; [|by eexists].
    case_bool_decide; cbn [negb]; [by eexists|].
    unfold bind at 1, handle_es_exceptions.
    unfold bind at 1, lift.
    destruct (load_mapping be path) as [mappings|e];
      unfold lift_ext at 1; cbv beta iota.
    + unfold request. cbn [history log].
      destruct (indices_create be (history st) (index s) mappings) as [[]|e];
        unfold lift_ext; cbv beta iota; [by eexists|].
      match goal with
      | |- context [on_exception ?ci ?e0 ?st0] =>
          destruct (on_exception_log unit ci e0 st0 (on_current_log _ IH))
            as (more & Hm);
          destruct (on_exception (A:=unit) ci e0 st0) as [[r|e'] st'];
          unfold ret; cbn [fst snd log] in *; rewrite Hm; eexists;
          rewrite <- ?app_assoc; reflexivity
      end.
    + match goal with
      | |- context [on_exception ?ci ?e0 ?st0] =>
          destruct (on_exception_log unit ci e0 st0 (on_current_log _ IH))
            as (more & Hm);
          destruct (on_exception (A:=unit) ci e0 st0) as [[r|e'] st'];
          unfold ret; cbn [fst snd log] in *; rewrite Hm; eexists;
          rewrite <- ?app_assoc; reflexivity
      end.
Qed.

Lemma current_create_index_log (depth : nat) (st : State) :
  exists more, log (snd (current_create_index be depth st)) = log st ++ more.
Proof.
  apply (on_current_log (create_index be depth)).
  intros s st'. apply create_index_log.
Qed.

(** The handler's first record, for any [create_index'] that keeps the
    log. *)
Lemma handler_first_record (A : Type) (create_index' : M unit) (e : ext_exn)
    (st : State) :
  (forall st', exists more, log (snd (create_index' st')) = log st' ++ more) ->
  let out := on_exception (A:=A) create_index' (External e) st in
  match e with
  | NotFoundError _ _ => log (snd out) = log st
  | _ => exists record more,
           log (snd out) = log st ++ record :: more /\ level record = ERROR
  end.
Proof.
  intros Hci.
  destruct e as [error info|error info|m|m|m|n m]; simpl;
    try done; run;
    try (eexists _, _; split; [rewrite <- ?app_assoc; reflexivity|done]).
  repeat (case_bool_decide; simpl;
          try (eexists _, _; split; [rewrite <- ?app_assoc; reflexivity|done])).
  match goal with
  | |- context [create_index' ?st0] =>
      destruct (Hci st0) as (more & Hm);
      destruct (create_index' st0) as [[u|e'] st1]; simpl in *;
      rewrite Hm; eexists _, _;
      (split; [rewrite <- ?app_assoc; reflexivity|done])
  end.
Qed.

(** X21: the handler logs before it raises or suppresses: for every fault
    of a collaborator other than a not-found fault, what the handler adds
    to the log starts with a record at level ERROR, and nothing already
    logged is lost; a not-found fault is translated without a record.
    This holds with the method [create_index] of a session in the
    handler's place for [create_index], and with the module-level
    [create_index] that the handler does call. *)
Theorem handler_logs_faults
    (A : Type) (depth : nat) (s : SearchSession) (e : ext_exn) (st : State) :
  (let out := on_exception (A:=A) (create_index be depth s) (External e) st in
   match e with
   | NotFoundError _ _ => log (snd out) = log st
   | _ => exists record more,
            log (snd out) = log st ++ record :: more /\ level record = ERROR
   end)
  /\ (let out := on_exception (A:=A) (current_create_index be depth)
                              (External e) st in
      match e with
      | NotFoundError _ _ => log (snd out) = log st
      | _ => exists record more,
               log (snd out) = log st ++ record :: more /\ level record = ERROR
      end).
Proof.
  split.
  - apply handler_first_record. intros st'. apply create_index_log.
  - apply handler_first_record. intros st'. apply current_create_index_log.
Qed.

End IndexMore.

(** ** The theorems of [IndexMore], on the sample clusters *)

Section IndexMoreWitnesses.
Import Py Index IndexRequests.

Lemma search_preparation_failure_witness :
  let query := mkQuery 1 25 IsAdvancedQuery EmptyString in
  fst (search (Sample.cluster true) 3 Sample.session query Sample.start)
  = Raises (QueryError "Malformed query")
  /\ history (snd (search (Sample.cluster true) 3 Sample.session query
                     Sample.start))
     = history Sample.start.
Proof.
  intros query.
  apply (@search_preparation_failure Sample.sample_collaborators
           (Sample.cluster true) 3 Sample.session query Sample.start
           (TypeError "no terms")).
  - discriminate.
  - vm_compute. discriminate.
  - reflexivity.
Defined.

Lemma search_page_size_not_positive_witness :
  let zero := mkQuery 1 0 IsSimpleQuery "muon" in
  let negative := mkQuery 1 (-25) IsSimpleQuery "muon" in
  search (Sample.cluster true) 3 Sample.session zero Sample.start
  = (Raises ZeroDivisionError, Sample.start)
  /\ fst (search (Sample.cluster true) 3 Sample.session negative Sample.start)
     = Raises (OutsideAllowedRange "Requested page 1, but max is -400").
Proof.
  intros zero negative. split.
  - apply (@search_page_size_not_positive Sample.sample_collaborators
             (Sample.cluster true) 3 Sample.session zero Sample.start).
    reflexivity.
  - apply (@search_page_size_not_positive Sample.sample_collaborators
             (Sample.cluster true) 3 Sample.session negative Sample.start);
      [reflexivity|vm_compute; discriminate|vm_compute; discriminate].
Defined.

Lemma search_backend_outcomes_witness :
  let query := mkQuery 2 25 IsSimpleQuery "muon" in
  fst (search (Faulty.faulty_cluster (TransportError "parsing_exception" "bad query"))
         3 Sample.session query Sample.start)
  = Raises (QueryError "bad query").
Proof.
  intros query.
  destruct (@search_backend_outcomes Sample.sample_collaborators
              (Faulty.faulty_cluster (TransportError "parsing_exception" "bad query"))
              3 Sample.session query Sample.start
              (Sample.mkSearch "arxiv" (Some "simple:muon") false None))
    as (_ & _ & Hparse & _).
  - reflexivity.
  - discriminate.
  - vm_compute. discriminate.
  - reflexivity.
  - apply (Hparse "bad query"). reflexivity.
Defined.

Lemma create_index_existing_index_witness :
  fst (create_index (Sample.cluster true) 1 Sample.session Sample.start)
  = Returns tt.
Proof.
  rewrite (@create_index_existing_index Sample.sample_collaborators
             (Sample.cluster true) 0 Sample.session Sample.start
             "mappings/DocumentMapping.json" "{mappings}" "arxiv");
    [reflexivity|reflexivity|discriminate|reflexivity|reflexivity].
Defined.

Lemma create_index_faults_witness :
  fst (create_index
         (Faulty.faulty_cluster (TransportError "mapper_parsing_exception" "no such type"))
         1 Sample.session Sample.start)
  = Raises (MappingError "Invalid mapping: no such type").
Proof.
  destruct (@create_index_faults Sample.sample_collaborators
              (Faulty.faulty_cluster
                 (TransportError "mapper_parsing_exception" "no such type"))
              0 Sample.session Sample.start
              "mappings/DocumentMapping.json" "{mappings}")
    as (Hmapping & _).
  - reflexivity.
  - discriminate.
  - reflexivity.
  - apply (Hmapping "no such type"). reflexivity.
Defined.

Lemma existence_check_fault_untranslated_witness :
  fst (add_document (Sample.broken_cluster (TransportError "timeout" "30s"))
         3 Sample.session Sample.sample_document Sample.start)
  = Raises (External (TransportError "timeout" "30s")).
Proof.
  destruct (@existence_check_fault_untranslated Sample.sample_collaborators
              (Sample.broken_cluster (TransportError "timeout" "30s"))
              3 Sample.session Sample.sample_document [] 500 Sample.start
              (TransportError "timeout" "30s")) as [Hadd _].
  - reflexivity.
  - by rewrite Hadd.
Defined.

Lemma indexing_faults_witness :
  fst (add_document (Faulty.faulty_cluster (SerializationError "not JSON"))
         3 Sample.session Sample.sample_document Sample.start)
  = Raises (IndexingError "Problem serializing document: not JSON").
Proof.
  destruct (@indexing_faults Sample.sample_collaborators
              (Faulty.faulty_cluster (SerializationError "not JSON"))
              3 Sample.session Sample.sample_document [] 500 Sample.start
              "not JSON") as [Hadd _].
  - reflexivity.
  - apply Hadd. reflexivity.
Defined.

Lemma add_document_index_gone_witness :
  let papers := mkSession "papers" (Some "mappings/DocumentMapping.json") in
  let out := add_document Faulty.stale_cluster 1 papers
                          Sample.sample_document Sample.start in
  fst out
  = Raises (IndexConnectionError
              "Problem communicating with ES: index_not_found_exception")
  /\ history (snd out)
     = [CExists "papers";
        CIndex "papers" (PyStr "1801.00123") Sample.sample_document;
        CCreate "arxiv" "{mappings}"].
Proof.
  intros papers out.
  destruct (@add_document_index_gone Sample.sample_collaborators
              Faulty.stale_cluster 0 papers Sample.sample_document
              Sample.start "papers" eq_refl) as [Hgone _].
  destruct (Hgone eq_refl) as [Hcurrent _].
  apply (Hcurrent Sample.session [] "mappings/DocumentMapping.json"
                  "{mappings}");
    [reflexivity|reflexivity|discriminate|reflexivity|reflexivity].
Defined.

Lemma bulk_actions_follow_documents_witness :
  let versioned : Document :=
    {[ "id" := PyStr "1801.00123v2"; "paper_id" := PyStr "1801.00123" ]} in
  exists more,
    history (snd (bulk_add_documents (Sample.cluster true) 3 Sample.session
                    [Sample.sample_document; versioned] 500 Sample.start))
    = [CExists "arxiv";
       CBulk [mkAction "arxiv" "document" (PyStr "1801.00123")
                       Sample.sample_document;
              mkAction "arxiv" "document" (PyStr "1801.00123v2") versioned]
             500] ++ more.
Proof.
  intros versioned.
  destruct (@bulk_actions_follow_documents Sample.sample_collaborators
              (Sample.cluster true) 3 Sample.session
              [Sample.sample_document; versioned] 500 Sample.start eq_refl)
    as (actions & more & Hhistory & _ & Hsource & Hid & Hall).
  exists more. rewrite Hhistory.
  destruct actions as [|[i1 t1 d1 s1] [|[i2 t2 d2 s2] [|third rest]]];
    try discriminate.
  simpl in Hsource, Hid. injection Hsource as -> ->. injection Hid as -> ->.
  inversion Hall as [|first others [Hi1 Ht1] Hrest]; subst.
  inversion Hrest as [|second others' [Hi2 Ht2] _]; subst.
  simpl in Hi1, Ht1, Hi2, Ht2. subst. reflexivity.
Defined.

End IndexMoreWitnesses.

(** ** Configuration and sessions *)

Section SessionFacts.
Import Py Settings.

(** [setdefault] is the union with a singleton, the configuration
    winning. *)
Lemma setdefault_union (key : string) (value : option string) (c : config) :
  setdefault key value c = c ∪ {[ key := value ]}.
Proof.
  unfold setdefault. apply map_eq. intros k.
  rewrite lookup_union.
  destruct (c !! key) as [v|] eqn:Hkey.
  - destruct (decide (k = key)) as [->|Hne].
    + rewrite Hkey, lookup_singleton_eq. done.
    + rewrite lookup_singleton_ne by done. by destruct (c !! k).
  - destruct (decide (k = key)) as [->|Hne].
    + rewrite lookup_insert_eq, Hkey, lookup_singleton_eq. done.
    + rewrite lookup_insert_ne, lookup_singleton_ne by done.
      by destruct (c !! k).
Qed.

Lemma get_union (c d : config) (key : string) (fallback : option string) :
  d !! key = Some fallback \/ d !! key = None ->
  get (c ∪ d) key fallback = get c key fallback.
Proof.
  unfold get. rewrite lookup_union.
  destruct (c !! key) as [v|]; simpl.
  - by destruct (d !! key).
  - intros [-> | ->]; done.
Qed.

(** X11: [init_app] only fills gaps: the configuration it leaves is the
    one it was given, joined with the seven defaults for the keys that
    were absent; a key that is present keeps its value, even [None]; and a
    second application changes nothing. *)
Theorem init_app_fills_gaps (c : config) :
  IndexSession.init_app c = c ∪ IndexSession.init_app ∅
  /\ (forall key value, c !! key = Some value ->
                        IndexSession.init_app c !! key = Some value)
  /\ IndexSession.init_app (IndexSession.init_app c) = IndexSession.init_app c.
Proof.
  assert (Hunion : forall c', IndexSession.init_app c'
                              = c' ∪ IndexSession.init_app ∅).
  { intros c'. unfold IndexSession.init_app.
    rewrite !setdefault_union. rewrite (left_id_L ∅ (∪)).
    by rewrite <- !(assoc_L (∪)). }
  split; [apply Hunion|]. split.
  - intros key value Hkey. rewrite Hunion, lookup_union, Hkey.
    by destruct (IndexSession.init_app ∅ !! key).
  - rewrite (Hunion (IndexSession.init_app c)), (Hunion c).
    rewrite <- (assoc_L (∪)). by rewrite (idemp_L (∪)).
Qed.

(** X12: the defaults of [get_session] are those of [init_app]: building
    the session from the configuration as it is, or from the configuration
    that [init_app] completed, gives the same session, the same log and
    the same failure. *)
Theorem get_session_defaults_agree
    (connect : IndexSession.Connection -> Outcome ConstructorFault unit)
    (c : config) :
  IndexSession.get_session connect (IndexSession.init_app c)
  = IndexSession.get_session connect c.
Proof.
  destruct (init_app_fills_gaps c) as [-> _].
  unfold IndexSession.get_session.
  rewrite !get_union by (first [by left | by right]).
  reflexivity.
Qed.

(** X13: within an application context, [current_session] builds the
    session once: after a call that returned a session, every later call
    returns that same session and leaves the global alone, whatever the
    configuration and the client's constructor have become; a call that
    failed leaves the global as it was. *)
Theorem current_session_caches
    (connect : IndexSession.Connection -> Outcome ConstructorFault unit)
    (c : config) (g : IndexSession.AppGlobal)
    (o : Outcome exn IndexSession.SessionObject)
    (g' : option IndexSession.AppGlobal) (l : list Index.LogRecord) :
  IndexSession.current_session connect c (Some g) = (o, g', l) ->
  match o with
  | Returns session =>
      forall connect' c',
        IndexSession.current_session connect' c' g' = (Returns session, g', [])
  | Raises _ => g' = Some g
  end.
Proof.
  unfold IndexSession.current_session. destruct g as [[cached|]].
  - intros [= <- <- <-]. done.
  - destruct (IndexSession.get_session connect c) as [[session|e] l0].
    + intros [= <- <- <-]. done.
    + intros [= <- <- <-]. done.
Qed.

(** X14: [ok] answers [True] when a session is cached in the application
    global or the client can be constructed, and [False] otherwise; it
    makes no request to the cluster, and within an application context an
    answer [True] is final. *)
Theorem ok_checks_construction_only
    (connect : IndexSession.Connection -> Outcome ConstructorFault unit)
    (c : config) (g : option IndexSession.AppGlobal) :
  fst (IndexSession.ok connect c g)
  = match g with
    | Some (IndexSession.mkGlobal (Some _)) => true
    | _ => is_returns (fst (IndexSession.get_session connect c))
    end
  /\ (is_Some g -> fst (IndexSession.ok connect c g) = true ->
      forall connect' c',
        IndexSession.ok connect' c' (snd (IndexSession.ok connect c g))
        = (true, snd (IndexSession.ok connect c g))).
Proof.
  unfold IndexSession.ok, IndexSession.current_session. split.
  - destruct g as [[[cached|]]|]; simpl; [done| |].
    + by destruct (IndexSession.get_session connect c) as [[session|e] l0].
    + by destruct (IndexSession.get_session connect c) as [[session|e] l0].
  - intros [g0 ->]. destruct g0 as [[cached|]]; simpl; [done|].
    destruct (IndexSession.get_session connect c) as [[session|e] l0]; simpl;
      [done|discriminate].
Qed.

End SessionFacts.

Section SessionWitnesses.
Import Py Settings.

Lemma current_session_caches_witness :
  let connect := fun _ : IndexSession.Connection =>
                   Returns tt : Outcome ConstructorFault unit in
  let refuse := fun _ : IndexSession.Connection =>
                  Raises (ElasticsearchException "down")
                  : Outcome ConstructorFault unit in
  let built := IndexSession.current_session connect ∅
                 (Some (IndexSession.mkGlobal None)) in
  exists session,
    fst (fst built) = Returns session
    /\ IndexSession.current_session refuse {[ "ELASTICSEARCH_HOST" := Some "es" ]}
         (snd (fst built))
       = (Returns session, snd (fst built), []).
Proof.
  intros connect refuse built.
  destruct built as [[o g'] l] eqn:Hbuilt.
  pose proof (current_session_caches connect ∅ (IndexSession.mkGlobal None)
                o g' l Hbuilt) as Hcached.
  vm_compute in Hbuilt. injection Hbuilt as <- <- <-.
  eexists. split; [reflexivity|]. apply Hcached.
Defined.

Lemma ok_checks_construction_only_witness :
  let connect := fun _ : IndexSession.Connection =>
                   Returns tt : Outcome ConstructorFault unit in
  let refuse := fun _ : IndexSession.Connection =>
                  Raises (ElasticsearchException "down")
                  : Outcome ConstructorFault unit in
  let g := Some (IndexSession.mkGlobal None) in
  IndexSession.ok refuse ∅ (snd (IndexSession.ok connect ∅ g))
  = (true, snd (IndexSession.ok connect ∅ g)).
Proof.
  intros connect refuse g.
  apply (proj2 (ok_checks_construction_only connect ∅ g)).
  - by eexists.
  - reflexivity.
Defined.

End SessionWitnesses.

(** ** More on the legacy index service *)

Section LegacyMore.
Import Py Settings.
Context `{Client}.

(** X16: the legacy [add_document] reports success exactly when the
    document has a ['metadata_id'] and the client's [index] call, made
    with that id and the whole document, returned: no fault of the client
    is swallowed.  A document without the key raises [KeyError] whatever
    the client would do, and with the key the outcome depends on the
    client only through that one call. *)
Theorem legacy_add_document_outcomes
    (es_index : pyvalue -> dict -> Outcome ext_exn unit) (document : dict) :
  (is_returns (LegacySession.add_document es_index document) = true
   <-> exists ident, document !! "metadata_id" = Some ident
                     /\ es_index ident document = Returns tt)
  /\ (document !! "metadata_id" = None ->
      forall es_index',
        LegacySession.add_document es_index' document
        = Raises (External (OtherException "KeyError" "metadata_id")))
  /\ (forall es_index' ident,
        document !! "metadata_id" = Some ident ->
        es_index' ident document = es_index ident document ->
        LegacySession.add_document es_index' document
        = LegacySession.add_document es_index document).
Proof.
  unfold LegacySession.add_document. split; [|split].
  - destruct (document !! "metadata_id") as [ident|]; simpl.
    + destruct (es_index ident document) as [[]|e] eqn:Hindex; simpl.
      * split; [|done]. intros _. by exists ident.
      * split.
        -- destruct e; unfold raise_formatted; simpl;
             try destruct (transport_str _); discriminate.
        -- intros (ident' & [= <-] & Hreturned). congruence.
    + split; [discriminate|]. intros (ident & Hkey & _). discriminate.
  - by intros ->.
  - intros es_index' ident -> ->. done.
Qed.

(** X17: a lookup that misses is reported differently by the two
    services.  When the client returns an empty record, the legacy
    [get_document] returns [None] and the index service raises
    [DocumentNotFound]; when the client raises a not-found fault, the
    index service raises [DocumentNotFound] again, and the legacy
    [get_document] raises [IOError] with the client's rendering of the
    fault, or what that rendering raises. *)
Theorem lookup_miss_legacy_and_current
    `{Index.Collaborators} (be : Index.Backend) (depth : nat)
    (s : Index.SearchSession) (document_id : Z) (st : Index.State) :
  (Index.es_get be (Index.history st) (Index.index s) document_id = Returns None ->
   LegacySession.get_document (Returns None) = Returns None
   /\ fst (Index.get_document be depth s document_id st)
      = Raises (DocumentNotFound "No such document"))
  /\ (forall error info,
        Index.es_get be (Index.history st) (Index.index s) document_id
        = Raises (NotFoundError error info) ->
        LegacySession.get_document (Raises (NotFoundError error info))
        = match transport_str (NotFoundError error info) with
          | Returns rendered =>
              Raises (IOError ("Problem communicating with ES: " +:+ rendered))
          | Raises raised => Raises raised
          end
        /\ fst (Index.get_document be depth s document_id st)
           = Raises (DocumentNotFound "No such document")).
Proof.
  split.
  - intros Hget. split; [done|].
    unfold Index.get_document, Index.handle_es_exceptions, Index.bind,
      Index.request. rewrite Hget. done.
  - intros error info Hget. split; [done|].
    unfold Index.get_document, Index.handle_es_exceptions, Index.bind,
      Index.request. rewrite Hget. done.
Qed.

(** X18: the legacy [get_session] builds the same session from a
    configuration and from the configuration that the legacy [init_app]
    completed, and it always sends credentials: [http_auth] is never
    [None], and reads ['None:None'] when user and password are both
    configured as [None]. *)
Theorem legacy_get_session_credentials
    (connect : LegacySession.Connection -> Outcome ConstructorFault unit)
    (c : config) :
  LegacySession.get_session connect (LegacySession.init_app c)
  = LegacySession.get_session connect c
  /\ (forall session,
        LegacySession.get_session connect c = Returns session ->
        LegacySession.http_auth (LegacySession.es session)
        = Some (str (get c "ELASTICSEARCH_USER" (Some "elastic")) +:+ ":"
                +:+ str (get c "ELASTICSEARCH_PASSWORD" (Some "changeme"))))
  /\ (forall session,
        c !! "ELASTICSEARCH_USER" = Some None ->
        c !! "ELASTICSEARCH_PASSWORD" = Some None ->
        LegacySession.get_session connect c = Returns session ->
        LegacySession.http_auth (LegacySession.es session) = Some "None:None").
Proof.
  assert (Hunion : LegacySession.init_app c = c ∪ LegacySession.init_app ∅).
  { unfold LegacySession.init_app.
    rewrite !setdefault_union. rewrite (left_id_L ∅ (∪)).
    by rewrite <- !(assoc_L (∪)). }
  assert (Hauth : forall session,
            LegacySession.get_session connect c = Returns session ->
            LegacySession.http_auth (LegacySession.es session)
            = Some (str (get c "ELASTICSEARCH_USER" (Some "elastic")) +:+ ":"
                    +:+ str (get c "ELASTICSEARCH_PASSWORD" (Some "changeme")))).
  { intros session. unfold LegacySession.get_session, LegacySession.__init__.
    destruct (connect _) as [[]|[msg|e]]; [|done|done].
    by intros [= <-]. }
  split; [|split].
  - rewrite Hunion. unfold LegacySession.get_session.
    rewrite !get_union by (first [by left | by right]). reflexivity.
  - exact Hauth.
  - intros session Huser Hpass Hsession. rewrite (Hauth session Hsession).
    unfold get. by rewrite Huser, Hpass.
Qed.

End LegacyMore.

Section LegacyMoreWitnesses.
Import Py Settings.

Lemma lookup_miss_legacy_and_current_witness :
  let fault := NotFoundError "not_found" EmptyString in
  LegacySession.get_document (H:=Sample.sample_client) (Raises fault)
  = Raises (IOError
              "Problem communicating with ES: NotFoundError(404, 'not_found')")
  /\ fst (Index.get_document (Faulty.faulty_cluster fault)
            3 Sample.session 7 Sample.start)
     = Raises (DocumentNotFound "No such document").
Proof.
  intros fault.
  destruct (@lookup_miss_legacy_and_current Sample.sample_client
              Sample.sample_collaborators (Faulty.faulty_cluster fault)
              3 Sample.session 7 Sample.start) as [_ Hnotfound].
  apply (Hnotfound "not_found" EmptyString). reflexivity.
Defined.

Lemma legacy_get_session_credentials_witness :
  let connect := fun _ : LegacySession.Connection =>
                   Returns tt : Outcome ConstructorFault unit in
  let c : config := {[ "ELASTICSEARCH_USER" := None;
                       "ELASTICSEARCH_PASSWORD" := None ]} in
  let session :=
    LegacySession.mkSessionObject (Some "arxiv")
      (LegacySession.mkConnection (Some "localhost") (Some "9200")
                                  (Some "None:None")) in
  LegacySession.get_session connect c = Returns session
  /\ LegacySession.http_auth (LegacySession.es session) = Some "None:None".
Proof.
  intros connect c session. split; [reflexivity|].
  apply (legacy_get_session_credentials connect c); reflexivity.
Defined.

End LegacyMoreWitnesses.

(** ** More on the date subform *)

Section FormsMore.
Import Forms YearField.

(** X19: for a year typed into the year field, and the current date a
    calendar date, [validate_year] passes exactly when the year is 1991 or
    later and not later than the current year. *)
Theorem validate_year_bounds (today : date) (form : DateForm) (y : Z) :
  calendar today = true ->
  validate_year today form (Some (parsed_year y))
  = if ((1991 <=? y)%Z && (y <=? year today)%Z)%bool then Valid
    else ValidationError "Not a valid publication year".
Proof.
  unfold calendar, validate_year, parsed_year, date_gt, date_lt. simpl.
  intros Hcal. apply andb_prop in Hcal as [Hm Hd].
  apply Z.leb_le in Hm, Hd.
  destruct (Z.ltb_spec y 1991), (Z.eqb_spec y 1991), (Z.leb_spec 1991 y),
           (Z.leb_spec y (year today)), (Z.ltb_spec (year today) y),
           (Z.eqb_spec (year today) y), (Z.ltb_spec (month today) 1),
           (Z.eqb_spec (month today) 1), (Z.ltb_spec (day today) 1);
    simpl; try reflexivity; lia.
Qed.

(** X20: a form on which the specific-year option is selected and which
    passes both [validate_specific_year] and [validate_year] holds a year,
    one that is neither before the first of January 1991 nor after the
    current date. *)
Theorem specific_year_validated (today : date) (form : DateForm) :
  specific_year form = true ->
  validate_specific_year form (specific_year form) = Valid ->
  validate_year today form (form_year form) = Valid ->
  exists d, form_year form = Some d
            /\ date_lt d (mkDate 1991 1 1) = false
            /\ date_gt d today = false.
Proof.
  unfold validate_specific_year, validate_year. intros -> Hsel Hyear.
  destruct (form_year form) as [d|]; simpl in *.
  - exists d. split; [done|].
    destruct (date_lt d (mkDate 1991 1 1)), (date_gt d today); done.
  - discriminate.
Qed.

Lemma validate_year_bounds_witness :
  validate_year (mkDate 2018 3 1)
                (mkDateForm false false true (Some (parsed_year 2018))
                            false None None)
                (Some (parsed_year 2018))
  = Valid
  /\ validate_year (mkDate 2018 3 1)
                   (mkDateForm false false true (Some (parsed_year 2019))
                               false None None)
                   (Some (parsed_year 2019))
     = ValidationError "Not a valid publication year".
Proof.
  split.
  - rewrite (validate_year_bounds (mkDate 2018 3 1) _ 2018); reflexivity.
  - rewrite (validate_year_bounds (mkDate 2018 3 1) _ 2019); reflexivity.
Defined.

Lemma specific_year_validated_witness :
  let form := mkDateForm false false true (Some (mkDate 2005 1 1))
                         false None None in
  exists d, form_year form = Some d
            /\ date_lt d (mkDate 1991 1 1) = false
            /\ date_gt d (mkDate 2018 3 1) = false.
Proof.
  intros form.
  apply (specific_year_validated (mkDate 2018 3 1) form); reflexivity.
Defined.

End FormsMore.

(** ** Sessions that cannot be built *)

Section SessionFailure.
Import Py Settings.

(** X22: when the construction of the client raises an
    [ElasticsearchException], [get_session] raises [IndexConnectionError]
    with the client's message (the legacy [get_session] raises [IOError]),
    [current_session] raises it too and caches nothing, and [ok] answers
    [False]; any other exception of the constructor goes through
    [get_session] unchanged. *)
Theorem session_construction_failure
    (connect : IndexSession.Connection -> Outcome ConstructorFault unit)
    (legacy_connect : LegacySession.Connection -> Outcome ConstructorFault unit)
    (c : config) (fault : ConstructorFault) :
  (forall connection, connect connection = Raises fault) ->
  (forall connection, legacy_connect connection = Raises fault) ->
  let raised :=
    match fault with
    | ElasticsearchException msg =>
        IndexConnectionError ("Could not initialize ES session: " +:+ msg)
    | OtherFault e => e
    end in
  let legacy_raised :=
    match fault with
    | ElasticsearchException msg =>
        IOError ("Could not initialize ES session: " +:+ msg)
    | OtherFault e => e
    end in
  fst (IndexSession.get_session connect c) = Raises raised
  /\ LegacySession.get_session legacy_connect c = Raises legacy_raised
  /\ (forall g,
        g = None \/ g = Some (IndexSession.mkGlobal None) ->
        fst (fst (IndexSession.current_session connect c g)) = Raises raised
        /\ snd (fst (IndexSession.current_session connect c g)) = g
        /\ IndexSession.ok connect c g = (false, g)).
Proof.
  intros Hconnect Hlegacy raised legacy_raised.
  assert (Hget : fst (IndexSession.get_session connect c) = Raises raised).
  { unfold IndexSession.get_session, IndexSession.__init__.
    rewrite Hconnect. unfold raised. by destruct fault. }
  split; [exact Hget|]. split.
  - unfold LegacySession.get_session, LegacySession.__init__.
    rewrite Hlegacy. unfold legacy_raised. by destruct fault.
  - intros g Hg. unfold IndexSession.ok, IndexSession.current_session.
    destruct (IndexSession.get_session connect c) as [[session|e] l];
      simpl in Hget; [discriminate|]. injection Hget as ->.
    by destruct Hg as [-> | ->].
Qed.

Lemma session_construction_failure_witness :
  let refuse := fun _ : IndexSession.Connection =>
                  Raises (ElasticsearchException "no host")
                  : Outcome ConstructorFault unit in
  let legacy_refuse := fun _ : LegacySession.Connection =>
                         Raises (ElasticsearchException "no host")
                         : Outcome ConstructorFault unit in
  fst (IndexSession.get_session refuse ∅)
  = Raises (IndexConnectionError "Could not initialize ES session: no host")
  /\ LegacySession.get_session legacy_refuse ∅
     = Raises (IOError "Could not initialize ES session: no host").
Proof.
  intros refuse legacy_refuse.
  destruct (session_construction_failure refuse legacy_refuse ∅
              (ElasticsearchException "no host")) as (Hget & Hlegacy & _);
    [reflexivity|reflexivity|].
  split; [exact Hget|exact Hlegacy].
Defined.

End SessionFailure.
